(** * Student performance record-keeper: model and properties

    A shallow embedding of [student_analysis.py].  The program keeps three
    values, a subject list, a student list and a NumPy marks table, in a
    JSON file [students_data.json], and offers a console menu to append a
    record, tabulate results and draw two charts.

    The embedding threads an explicit [world] (the persisted file, what
    the storage does with a write, the console input still to be read, and
    the trace of everything printed or drawn) through a small exception
    monad.
    Library calls ([json], [numpy], [matplotlib], [int], [input]) are given
    by the definitions of the first part; the functions of the script follow
    in the order of the source.  Averages are IEEE 754 doubles, computed
    with the specification of binary64 arithmetic of the standard library. *)

From Stdlib Require Import List ZArith QArith String Ascii Bool Arith Lia.
From Stdlib Require Import DecimalString SpecFloat.
Import ListNotations.

Local Open Scope string_scope.
Local Open Scope list_scope.
Local Open Scope Z_scope.

Set Warnings "-register-all".

(* ===================================================================== *)
(** ** JSON documents *)
(* ===================================================================== *)

(** What [json.load] returns: Python values built from [None], [bool],
    [int], [float], [str], [list] and [dict].  A [dict] is kept as the list
    of its items, in insertion order. *)
Inductive json : Type :=
| JNull
| JBool (b : bool)
| JInt (z : Z)
| JFloat (q : Q)
| JStr (s : string)
| JList (items : list json)
| JObj (members : list (string * json)).

(** The exceptions the script can meet. *)
Inductive exn : Type :=
| FileNotFoundError
| JSONDecodeError
| UnicodeDecodeError
| KeyError (key : string)
| TypeError
| ValueError
| IndexError
| OSError
| EOFError.

(** [except (FileNotFoundError, json.JSONDecodeError)] of [initialize_data]. *)
Definition is_load_failure (e : exn) : bool :=
  match e with
  | FileNotFoundError | JSONDecodeError => true
  | _ => false
  end.

(** [except ValueError] of [add_record]; the two decode errors are
    subclasses of [ValueError]. *)
Definition is_value_error (e : exn) : bool :=
  match e with
  | ValueError | JSONDecodeError | UnicodeDecodeError => true
  | _ => false
  end.

(* ===================================================================== *)
(** ** NumPy arrays of marks *)
(* ===================================================================== *)

(** The arrays the script builds: [np.array([])] and other one-dimensional
    integer arrays, of shape [(n,)], and two-dimensional integer tables of
    shape [(R, C)].  The column count is part of a table because a table
    may have no row.  The element type of an empty array plays no role. *)
Inductive ndarray : Type :=
| Arr1 (values : list Z)
| Arr2 (ncols : nat) (rows : list (list Z)).

(** A table is a NumPy array only when every row has [ncols] entries. *)
Definition wf_ndarray (a : ndarray) : Prop :=
  match a with
  | Arr1 _ => True
  | Arr2 c rows => Forall (fun r => List.length r = c) rows
  end.

(** [a.size]: the total number of elements. *)
Definition size (a : ndarray) : nat :=
  match a with
  | Arr1 xs => List.length xs
  | Arr2 c rows => (List.length rows * c)%nat
  end.

(** [len(a)]: the length of the first axis. *)
Definition nrows (a : ndarray) : nat :=
  match a with
  | Arr1 xs => List.length xs
  | Arr2 _ rows => List.length rows
  end.

(** [a.tolist()]. *)
Definition tolist (a : ndarray) : json :=
  match a with
  | Arr1 xs => JList (map JInt xs)
  | Arr2 _ rows => JList (map (fun r => JList (map JInt r)) rows)
  end.

(** [np.array([new_marks])]: a table of one row. *)
Definition np_array_row (new_marks : list Z) : ndarray :=
  Arr2 (List.length new_marks) [new_marks].

(** Reading a JSON list as a list of integers, or of strings. *)
Fixpoint as_ints (items : list json) : option (list Z) :=
  match items with
  | [] => Some []
  | JInt z :: rest => option_map (cons z) (as_ints rest)
  | _ :: _ => None
  end.

Fixpoint as_strs (items : list json) : option (list string) :=
  match items with
  | [] => Some []
  | JStr s :: rest => option_map (cons s) (as_strs rest)
  | _ :: _ => None
  end.

Fixpoint as_int_rows (items : list json) : option (list (list Z)) :=
  match items with
  | [] => Some []
  | JList r :: rest =>
      match as_ints r, as_int_rows rest with
      | Some r', Some rest' => Some (r' :: rest')
      | _, _ => None
      end
  | _ :: _ => None
  end.

Definition as_str_list (j : json) : option (list string) :=
  match j with
  | JList items => as_strs items
  | _ => None
  end.

(** Whether all rows have [c] entries. *)
Definition rectangular (c : nat) (rows : list (list Z)) : bool :=
  forallb (fun r => Nat.eqb (List.length r) c) rows.

(** [np.array(v)] for a value [v] read from JSON, where the result is an
    integer array of one or two dimensions: the empty list gives the
    one-dimensional empty array, a list of integers a one-dimensional array,
    a list of equally long lists of integers a table.  [None] stands for
    every other value (scalars, strings, floats, deeper or ragged nesting),
    whose array is outside [ndarray]. *)
Definition np_array (v : json) : option ndarray :=
  match v with
  | JList [] => Some (Arr1 [])
  | JList (JInt z :: rest) => option_map (fun xs => Arr1 (z :: xs)) (as_ints rest)
  | JList (JList r :: rest) =>
      match as_ints r, as_int_rows rest with
      | Some r', Some rest' =>
          if rectangular (List.length r') rest'
          then Some (Arr2 (List.length r') (r' :: rest'))
          else None
      | _, _ => None
      end
  | _ => None
  end.

(** [np.vstack((a, new_marks))] with [new_marks] a Python list: both are
    made two-dimensional, a one-dimensional array becoming a single row, and
    stacked; the column counts must agree, else NumPy raises [ValueError]. *)
Definition np_vstack (a : ndarray) (new_marks : list Z) : exn + ndarray :=
  match a with
  | Arr1 xs =>
      if Nat.eqb (List.length xs) (List.length new_marks)
      then inr (Arr2 (List.length xs) [xs; new_marks])
      else inl ValueError
  | Arr2 c rows =>
      if Nat.eqb c (List.length new_marks)
      then inr (Arr2 c (rows ++ [new_marks]))
      else inl ValueError
  end.

(** A double, as the IEEE 754 specification of the standard library
    has it (binary64: 53 bits of mantissa, exponents below 1024), the double
    nearest to an integer, and the quotient of two doubles, rounded to the
    nearest double. *)
Definition double : Type := spec_float.

Definition double_of_Z (z : Z) : double := binary_normalize 53 1024 z 0 false.

Definition double_div (x y : double) : double := SFdiv 53 1024 x y.

(** Below this bound every integer is a double. *)
Definition exact_bound : Z := 2 ^ 53.

(** A NumPy float: a double, or a double that this model does not
    determine.  [np.mean] adds the marks up as doubles and divides the sum
    by the count.  As long as the absolute values of the marks add up to
    less than 2^53, every partial sum, in whatever order NumPy adds, is an
    integer below 2^53 and so exact, and the mean is the double quotient of
    the integer sum by the count; beyond, the running sums round and the
    result depends on the order of the additions, which is not modelled. *)
Inductive npfloat : Type :=
| Double (d : double)
| Undetermined.

Definition zsum (xs : list Z) : Z := fold_right Z.add 0 xs.

(** [total / count] as doubles ([nan] for 0 / 0), where [weight], the sum
    of the absolute values, tells whether the sum was exact. *)
Definition quotient (total weight : Z) (count : nat) : npfloat :=
  if (weight <? exact_bound) && (Z.of_nat count <? exact_bound)
  then Double (double_div (double_of_Z total) (double_of_Z (Z.of_nat count)))
  else Undetermined.

(** [np.mean(xs)] of a one-dimensional array or a row. *)
Definition np_mean (xs : list Z) : npfloat :=
  quotient (zsum xs) (zsum (map Z.abs xs)) (List.length xs).

(** Elementwise sum of two rows of equal length. *)
Fixpoint add_rows (acc r : list Z) : list Z :=
  match acc, r with
  | a :: acc', x :: r' => (a + x) :: add_rows acc' r'
  | _, _ => []
  end.

(** What [np.mean(a, axis=0)] returns: a scalar for a one-dimensional
    array, one value per column for a table. *)
Inductive means : Type :=
| MeanScalar (m : npfloat)
| MeanVector (ms : list npfloat).

(** [np.mean(a, axis=0)]: the rows are added up elementwise, then every
    total is divided by the number of rows; the absolute values are added up
    beside them to tell which totals were exact. *)
Definition np_mean_axis0 (a : ndarray) : means :=
  match a with
  | Arr1 xs => MeanScalar (np_mean xs)
  | Arr2 c rows =>
      let totals := fold_left add_rows rows (repeat 0 c) in
      let weights := fold_left add_rows (map (map Z.abs) rows) (repeat 0 c) in
      MeanVector (map (fun tw => quotient (fst tw) (snd tw) (List.length rows))
                      (combine totals weights))
  end.

(** What iterating over an array yields: its elements, or its rows. *)
Inductive item : Type :=
| Scalar (z : Z)
| Row (r : list Z).

Definition iter (a : ndarray) : list item :=
  match a with
  | Arr1 xs => map Scalar xs
  | Arr2 _ rows => map Row rows
  end.

(** Column [j] of a list of rows. *)
Definition column_values (rows : list (list Z)) (j : nat) : list Z :=
  map (fun r => nth j r 0) rows.

(** [a[:, j]]: [IndexError] on a one-dimensional array or a column index
    out of range. *)
Definition column (a : ndarray) (j : nat) : exn + list Z :=
  match a with
  | Arr1 _ => inl IndexError
  | Arr2 c rows =>
      if Nat.ltb j c then inr (column_values rows j) else inl IndexError
  end.

(* ===================================================================== *)
(** ** The world: file, console and chart renderer *)
(* ===================================================================== *)

(** The state of [students_data.json], by what reading it does:
    - [Absent]: there is no file, [open] raises [FileNotFoundError];
    - [Unreadable]: the path cannot be opened for reading (no permission, a
      directory), [open] raises another [OSError];
    - [Undecodable]: the bytes are not text in the encoding of the file,
      reading raises [UnicodeDecodeError];
    - [Garbage]: the file holds text (possibly none) that is not JSON,
      [json.load] raises [JSONDecodeError];
    - [Overlong]: the file holds JSON text with an integer literal of more
      digits than the interpreter converts, [json.load] raises [ValueError];
    - [Json doc]: the file holds JSON text that [json.load] reads as [doc]. *)
Inductive file_state : Type :=
| Absent
| Unreadable
| Undecodable
| Garbage
| Overlong
| Json (doc : json).

(** What the storage does with a write: it takes it; it refuses to open
    the file for writing; or it opens the file, which creates or empties it,
    and fails before all of the text is written. *)
Inductive storage_state : Type :=
| Accepts
| RefusesOpen
| FailsWrite.

(** The members of [class Color] used as colours. *)
Inductive color : Type := HEADER | BLUE | GREEN | YELLOW | RED | BOLD.

(** Calls to the chart renderer. *)
Inductive plt_call : Type :=
| Figure
| Plot (xs : list nat) (ys : list Z) (label : string)
| Bar (labels : list string) (heights : means)
| Text (height : npfloat)
| Title (s : string)
| XLabel (s : string)
| YLabel (s : string)
| YLim
| Legend
| XTicks (ticks : list nat) (labels : list string)
| Grid
| TightLayout
| ShowChart.

(** Everything the program shows, in order. *)
Inductive event : Type :=
| PrintLine (text : string)
| PrintColored (text : string) (c : color)
| Prompt (text : string)
| ResultRow (student : string) (student_marks : list Z) (avg : npfloat)
| Unexpected (e : exn)
| Plt (call : plt_call).

Record world : Type := World {
  file : file_state;
  storage : storage_state;
  stdin : list string;
  trace : list event
}.

(** Whether a write succeeds. *)
Definition writable (w : world) : bool :=
  match storage w with
  | Accepts => true
  | RefusesOpen | FailsWrite => false
  end.

(** A world whose storage takes every write, or refuses to open the file
    for writing. *)
Definition mkWorld (f : file_state) (wr : bool) (inp : list string) (tr : list event)
  : world :=
  World f (if wr then Accepts else RefusesOpen) inp tr.

(** A call returns a value, raises an exception, leaves the model (the
    program holds a value that is neither a list of strings nor an integer
    array), or runs out of loop fuel. *)
Inductive outcome (A : Type) : Type :=
| Ok (a : A) (w : world)
| Raise (e : exn) (w : world)
| Unmodelled
| OutOfFuel.

Arguments Ok {A} a w.
Arguments Raise {A} e w.
Arguments Unmodelled {A}.
Arguments OutOfFuel {A}.

Definition M (A : Type) : Type := world -> outcome A.

Definition ret {A} (a : A) : M A := fun w => Ok a w.

Definition bind {A B} (m : M A) (k : A -> M B) : M B :=
  fun w =>
    match m w with
    | Ok a w' => k a w'
    | Raise e w' => Raise e w'
    | Unmodelled => Unmodelled
    | OutOfFuel => OutOfFuel
    end.

Declare Scope py_scope.
Delimit Scope py_scope with py.
Notation "x <- m ;; k" := (bind m (fun x => k))
  (at level 61, m at next level, right associativity) : py_scope.
Notation "m ;; k" := (bind m (fun _ => k))
  (at level 61, right associativity) : py_scope.
Notation "' pat <- m ;; k" := (bind m (fun x => match x with pat => k end))
  (at level 61, pat pattern, m at next level, right associativity) : py_scope.
Local Open Scope py_scope.

Definition raise {A} (e : exn) : M A := fun w => Raise e w.

Definition unmodelled {A} : M A := fun _ => Unmodelled.

(** [try: body  except <catches> as e: handler(e)]. *)
Definition try_except {A} (body : M A) (catches : exn -> bool) (handler : exn -> M A) : M A :=
  fun w =>
    match body w with
    | Raise e w' => if catches e then handler e w' else Raise e w'
    | r => r
    end.

Definition lift_exn {A} (r : exn + A) : M A :=
  match r with
  | inl e => raise e
  | inr a => ret a
  end.

Definition lift_model {A} (r : option A) : M A :=
  match r with
  | Some a => ret a
  | None => unmodelled
  end.

(** [while True: body], bounded by [fuel] rounds.  The body receives the
    variables the loop carries and answers [inl s'] when the loop goes round
    again with them updated, [inr a] at a [break]. *)
Fixpoint while_true {S A} (fuel : nat) (body : S -> M (S + A)) (s : S) : M A :=
  match fuel with
  | O => fun _ => OutOfFuel
  | S fuel' =>
      r <- body s ;;
      match r with
      | inl s' => while_true fuel' body s'
      | inr a => ret a
      end
  end.

(** The first [n] rounds of [while True: body]: [inl s'] when the loop is
    still running after them, with its variables at [s']. *)
Fixpoint rounds {S A} (n : nat) (body : S -> M (S + A)) (s : S) : M (S + A) :=
  match n with
  | O => ret (inl s)
  | S n' =>
      r <- body s ;;
      match r with
      | inl s' => rounds n' body s'
      | inr a => ret (inr a)
      end
  end.

(** [for x in xs: body(x)], collecting what the bodies return. *)
Fixpoint for_each {A B} (xs : list A) (body : A -> M B) : M (list B) :=
  match xs with
  | [] => ret []
  | x :: rest =>
      b <- body x ;;
      bs <- for_each rest body ;;
      ret (b :: bs)
  end.

Definition emit (ev : event) : M unit :=
  fun w => Ok tt (World (file w) (storage w) (stdin w) (trace w ++ [ev])).

Definition print (text : string) : M unit := emit (PrintLine text).

Definition plt (call : plt_call) : M unit := emit (Plt call).

(** [input(prompt)]: shows the prompt and reads a line; [EOFError] when
    the input is exhausted. *)
Definition input (prompt : string) : M string :=
  fun w =>
    let tr := trace w ++ [Prompt prompt] in
    match stdin w with
    | [] => Raise EOFError (World (file w) (storage w) [] tr)
    | line :: rest => Ok line (World (file w) (storage w) rest tr)
    end.

(** [with open('students_data.json', 'r') as file: json.load(file)]. *)
Definition json_load_file : M json :=
  fun w =>
    match file w with
    | Absent => Raise FileNotFoundError w
    | Unreadable => Raise OSError w
    | Undecodable => Raise UnicodeDecodeError w
    | Garbage => Raise JSONDecodeError w
    | Overlong => Raise ValueError w
    | Json doc => Ok doc w
    end.

(** [with open('students_data.json', 'w') as file: json.dump(doc, file)]:
    the file is replaced by the document.  [OSError] when the storage does
    not accept the write: with the file as it was when [open] is refused,
    and with a file that is empty or holds the beginning of the text, which
    is not JSON, when the write fails after [open]. *)
Definition json_dump_file (doc : json) : M unit :=
  fun w =>
    match storage w with
    | Accepts => Ok tt (World (Json doc) (storage w) (stdin w) (trace w))
    | RefusesOpen => Raise OSError w
    | FailsWrite => Raise OSError (World Garbage (storage w) (stdin w) (trace w))
    end.

(** The value of the last item with key [k], as in the [dict] that
    [json.load] builds. *)
Fixpoint lookup (k : string) (members : list (string * json)) : option json :=
  match members with
  | [] => None
  | (k', v) :: rest =>
      match lookup k rest with
      | Some v' => Some v'
      | None => if String.eqb k k' then Some v else None
      end
  end.

(** [data[k]] with a string key: [KeyError] on a [dict] without the key,
    [TypeError] on every value that is not a [dict]. *)
Definition getitem (data : json) (k : string) : M json :=
  match data with
  | JObj members =>
      match lookup k members with
      | Some v => ret v
      | None => raise (KeyError k)
      end
  | _ => raise TypeError
  end.

(* ===================================================================== *)
(** ** The script *)
(* ===================================================================== *)

Definition newline : string := String (ascii_of_nat 10) "".

(** [print_colored(text, color)]. *)
Definition print_colored (text : string) (c : color) : M unit :=
  emit (PrintColored text c).

(** The document [{'subjects': ..., 'students': ..., 'marks': ...}]. *)
Definition document (subjects students : list string) (marks : ndarray) : json :=
  JObj [("subjects", JList (map JStr subjects));
        ("students", JList (map JStr students));
        ("marks", tolist marks)].

Definition save_data (subjects students : list string) (marks : ndarray) : M unit :=
  json_dump_file (document subjects students marks) ;;
  print_colored "Data saved successfully." GREEN.

Definition default_subjects : list string :=
  ["English"; "Maths"; "Science"; "Social"; "History"].

(** The three values the program works on. *)
Definition dataset : Type := (list string * list string * ndarray)%type.

Definition initialize_data : M dataset :=
  try_except
    (data <- json_load_file ;;
     subjects <- getitem data "subjects" ;;
     students <- getitem data "students" ;;
     marks <- getitem data "marks" ;;
     marks <- lift_model (np_array marks) ;;
     subjects <- lift_model (as_str_list subjects) ;;
     students <- lift_model (as_str_list students) ;;
     print_colored "Data loaded successfully." GREEN ;;
     ret (subjects, students, marks))
    is_load_failure
    (fun _ =>
     print_colored "No existing data found. Initializing with default subjects." YELLOW ;;
     let subjects := default_subjects in
     let students := [] in
     let marks := Arr1 [] in
     save_data subjects students marks ;;
     ret (subjects, students, marks)).

(** Every loop of the script reads a line of input in each round that does
    not leave it, so one round more than there are lines left is enough
    fuel (lemma [loop_total] below). *)
Definition loop {S A} (body : S -> M (S + A)) (s : S) : M A :=
  fun w => while_true (Datatypes.S (List.length (stdin w))) body s w.

(** [s.ljust(width)], [sep.join(parts)], [s * n] and [str(n)], on ASCII
    text. *)
Fixpoint replicate (s : string) (n : nat) : string :=
  match n with
  | O => ""
  | S n' => s ++ replicate s n'
  end.

Definition ljust (s : string) (width : nat) : string :=
  s ++ replicate " " (width - String.length s).

Fixpoint join (sep : string) (parts : list string) : string :=
  match parts with
  | [] => ""
  | [p] => p
  | p :: rest => p ++ sep ++ join sep rest
  end.

Definition str_nat (n : nat) : string :=
  NilZero.string_of_uint (Nat.to_uint n).

(** [enumerate(xs)]. *)
Definition enumerate {A} (xs : list A) : list (nat * A) :=
  combine (seq 0 (List.length xs)) xs.

Section Script.

(** The built-in [int] on a line of text: the integer it denotes, or
    [None] where Python raises [ValueError].  The properties below hold for
    every such function. *)
Variable py_int : string -> option Z.

Definition int (line : string) : M Z :=
  match py_int line with
  | Some z => ret z
  | None => raise ValueError
  end.

(** The prompt of [add_record] for one subject. *)
Definition mark_prompt (subject : string) : string :=
  "Enter mark for " ++ subject ++ " (0-100): ".

(** One round of the [while True] loop of [add_record]: [inr mark] when
    the mark is appended to [new_marks] and the loop is left. *)
Definition mark_round (subject : string) (_ : unit) : M (unit + Z) :=
  try_except
    (line <- input (mark_prompt subject) ;;
     mark <- int line ;;
     if (0 <=? mark) && (mark <=? 100)
     then ret (inr mark)
     else (print_colored "Mark should be between 0 and 100." RED ;;
           ret (inl tt)))
    is_value_error
    (fun _ =>
     print_colored "Please enter a valid integer." RED ;;
     ret (inl tt)).

Definition read_mark (subject : string) : M Z :=
  loop (mark_round subject) tt.

(** The [for subject in subjects] loop of [add_record]: [new_marks]. *)
Definition read_marks (subjects : list string) : M (list Z) :=
  for_each subjects read_mark.

(** [np.vstack((marks, new_marks)) if marks.size else np.array([new_marks])]. *)
Definition stack_row (marks : ndarray) (new_marks : list Z) : exn + ndarray :=
  if negb (Nat.eqb (size marks) 0)
  then np_vstack marks new_marks
  else inr (np_array_row new_marks).

Definition add_record (subjects students : list string) (marks : ndarray)
  : M (list string * ndarray) :=
  print_colored (newline ++ "Adding a new student record") HEADER ;;
  student_name <- input "Enter student name: " ;;
  new_marks <- read_marks subjects ;;
  let students := students ++ [student_name] in
  marks <- lift_exn (stack_row marks new_marks) ;;
  save_data subjects students marks ;;
  print_colored "Record added successfully." GREEN ;;
  ret (students, marks).

(** The table header of [display_results]. *)
Definition results_header (subjects : list string) : string :=
  ljust "Student Name" 20 ++ " | "
  ++ join " | " (map (fun subject => ljust subject 8) subjects)
  ++ " | Average".

(** The body of the loop of [display_results]: the mean of the row, then
    the printed line, which carries the name, the marks and the average;
    their layout as text ([:8.2f]) is left to the reader of the trace.
    Iterating over the marks of a row fails on a scalar. *)
Definition print_result (entry : string * item) : M unit :=
  let '(student, student_marks) := entry in
  match student_marks with
  | Row r =>
      let avg := np_mean r in
      emit (ResultRow student r avg)
  | Scalar _ => raise TypeError
  end.

Definition display_results (subjects students : list string) (marks : ndarray)
  : M unit :=
  match students with
  | [] => print_colored "No data available." YELLOW
  | _ :: _ =>
      print_colored (newline ++ "Student Results:") HEADER ;;
      let header := results_header subjects in
      print_colored header BOLD ;;
      print_colored (replicate "-" (String.length header)) BOLD ;;
      for_each (combine students (iter marks)) print_result ;;
      ret tt
  end.

(** [plt.plot(xs, ys, marker='o', label=label)]: [ValueError] when the
    two series differ in length. *)
Definition plt_plot (xs : list nat) (ys : list Z) (label : string) : M unit :=
  if Nat.eqb (List.length xs) (List.length ys)
  then plt (Plot xs ys label)
  else raise ValueError.

Definition analyze_trend (subjects students : list string) (marks : ndarray)
  : M unit :=
  if Nat.ltb (List.length students) 2
  then print_colored "Not enough data to analyze trends." YELLOW
  else
    plt Figure ;;
    let years := seq 0 (List.length students) in
    for_each (enumerate subjects)
      (fun '(subject_index, subject) =>
         subject_marks <-
           (if negb (Nat.eqb (size marks) 0)
            then lift_exn (column marks subject_index)
            else ret []) ;;
         plt_plot years subject_marks subject) ;;
    plt (Title "Trend of Marks by Subject") ;;
    plt (XLabel "Student Index") ;;
    plt (YLabel "Marks") ;;
    plt Legend ;;
    plt (XTicks years students) ;;
    plt Grid ;;
    plt TightLayout ;;
    plt ShowChart.

(** The heights of the bars of [plt.bar(subjects, heights, ...)]: labels
    and heights are broadcast against each other, a scalar or a single value
    on one side being repeated along the other; [ValueError] when the two
    lengths differ and neither is one. *)
Definition bar_heights (subjects : list string) (heights : means)
  : exn + list npfloat :=
  match heights with
  | MeanScalar m => inr (repeat m (List.length subjects))
  | MeanVector ms =>
      if Nat.eqb (List.length ms) (List.length subjects) then inr ms
      else if Nat.eqb (List.length subjects) 1 then inr ms
      else match ms with
           | [m] => inr (repeat m (List.length subjects))
           | _ => inl ValueError
           end
  end.

(** [plt.bar(subjects, heights, color=..., edgecolor=...)]: the bars. *)
Definition plt_bar (subjects : list string) (heights : means) : M (list npfloat) :=
  bars <- lift_exn (bar_heights subjects heights) ;;
  plt (Bar subjects heights) ;;
  ret bars.

Definition subject_comparison (subjects students : list string) (marks : ndarray)
  : M unit :=
  if Nat.eqb (size marks) 0
  then print_colored "No data available for comparison." YELLOW
  else
    let subject_averages := np_mean_axis0 marks in
    plt Figure ;;
    bars <- plt_bar subjects subject_averages ;;
    plt (Title "Average Performance by Subject") ;;
    plt (XLabel "Subjects") ;;
    plt (YLabel "Average Marks") ;;
    plt YLim ;;
    for_each bars (fun height => plt (Text height)) ;;
    plt Grid ;;
    plt TightLayout ;;
    plt ShowChart.

(** One round of the menu loop of [main], on the loop's variables. *)
Definition menu_round (subjects : list string) (s : list string * ndarray)
  : M ((list string * ndarray) + unit) :=
  let '(students, marks) := s in
  print_colored (newline ++ "--- Student Performance Analysis ---") HEADER ;;
  print "1. Add new student record" ;;
  print "2. Display results" ;;
  print "3. Analyze trend" ;;
  print "4. Subject comparison" ;;
  print "5. Exit" ;;
  choice <- input "Enter your choice (1-5): " ;;
  if String.eqb choice "1" then
    s' <- add_record subjects students marks ;;
    ret (inl s')
  else if String.eqb choice "2" then
    display_results subjects students marks ;;
    ret (inl (students, marks))
  else if String.eqb choice "3" then
    analyze_trend subjects students marks ;;
    ret (inl (students, marks))
  else if String.eqb choice "4" then
    subject_comparison subjects students marks ;;
    ret (inl (students, marks))
  else if String.eqb choice "5" then
    print_colored
      "Thank you for using the Student Performance Analysis Program. Goodbye!" BOLD ;;
    ret (inr tt)
  else
    print_colored "Invalid choice. Please try again." RED ;;
    ret (inl (students, marks)).

Definition main : M unit :=
  print_colored "Starting Student Performance Analysis Program..." BOLD ;;
  '(subjects, students, marks) <- initialize_data ;;
  print ("Loaded data: " ++ str_nat (List.length subjects) ++ " subjects, "
         ++ str_nat (List.length students) ++ " students") ;;
  loop (menu_round subjects) (students, marks).

(** The [if __name__ == '__main__'] block. *)
Definition script : M unit :=
  try_except main (fun _ => true) (fun e => emit (Unexpected e)).

End Script.

(** A reader of decimal numerals, an optional sign followed by digits, to
    run the script on concrete input.  On such lines it answers what
    Python's [int] answers. *)
Definition digit_value (c : ascii) : option Z :=
  let n := nat_of_ascii c in
  if (Nat.leb 48 n && Nat.leb n 57)%bool then Some (Z.of_nat (n - 48)) else None.

Fixpoint digits_value (acc : Z) (s : string) : option Z :=
  match s with
  | EmptyString => Some acc
  | String c rest =>
      match digit_value c with
      | Some d => digits_value (10 * acc + d) rest
      | None => None
      end
  end.

Definition unsigned_int (s : string) : option Z :=
  match s with
  | EmptyString => None
  | _ => digits_value 0 s
  end.

Definition decimal_int (line : string) : option Z :=
  match line with
  | String "-" rest => option_map Z.opp (unsigned_int rest)
  | String "+" rest => unsigned_int rest
  | _ => unsigned_int line
  end.

(* ===================================================================== *)
(** ** Definitions used by the statements *)
(* ===================================================================== *)

(** The two messages of the fallback branch of [initialize_data]. *)
Definition fallback_messages : list event :=
  [PrintColored "No existing data found. Initializing with default subjects." YELLOW;
   PrintColored "Data saved successfully." GREEN].

(** The world after [initialize_data] fell back to the defaults. *)
Definition fallback_world (w : world) : world :=
  World (Json (document default_subjects [] (Arr1 []))) (storage w) (stdin w)
        (trace w ++ fallback_messages).

(** [np.array(a.tolist())] is [a] again, except for a table without rows,
    which comes back as the one-dimensional empty array. *)
Definition reloaded (a : ndarray) : ndarray :=
  match a with
  | Arr2 _ [] => Arr1 []
  | _ => a
  end.

(** A mark is valid when it lies in [0, 100]. *)
Definition in_range (v : Z) : Prop := 0 <= v <= 100.


(** [marks] is a marks table of [c] columns with the rows [rows]: the
    one-dimensional empty array when there is no row, or the table itself. *)
Definition marks_table (c : nat) (rows : list (list Z)) (marks : ndarray) : Prop :=
  (marks = Arr1 [] /\ rows = [])
  \/ (marks = Arr2 c rows /\ Forall (fun r => List.length r = c) rows).

(** What [add_record] shows when every entry is valid at once. *)
Definition add_record_events (subjects : list string) : list event :=
  [PrintColored (newline ++ "Adding a new student record") HEADER;
   Prompt "Enter student name: "]
  ++ map (fun subject => Prompt (mark_prompt subject)) subjects
  ++ [PrintColored "Data saved successfully." GREEN;
      PrintColored "Record added successfully." GREEN].

(** The three heading lines of [display_results]. *)
Definition results_heading (subjects : list string) : list event :=
  [PrintColored (newline ++ "Student Results:") HEADER;
   PrintColored (results_header subjects) BOLD;
   PrintColored (replicate "-" (String.length (results_header subjects))) BOLD].

(** The line [display_results] prints for a student. *)
Definition result_row (entry : string * list Z) : event :=
  ResultRow (fst entry) (snd entry) (np_mean (snd entry)).

(** The chart [subject_comparison] draws for the subject averages
    [averages], one bar and one label per average. *)
Definition comparison_chart (subjects : list string) (averages : list npfloat)
  : list event :=
  [Plt Figure;
   Plt (Bar subjects (MeanVector averages));
   Plt (Title "Average Performance by Subject");
   Plt (XLabel "Subjects");
   Plt (YLabel "Average Marks");
   Plt YLim]
  ++ map (fun height => Plt (Text height)) averages
  ++ [Plt Grid; Plt TightLayout; Plt ShowChart].

(** The world after more events were shown. *)
Definition shows (w : world) (events : list event) : world :=
  World (file w) (storage w) (stdin w) (trace w ++ events).

(** A call is steady when it ends, by a return or an exception, with the
    file and the storage as they were and without giving back input. *)
Definition steady {A} (m : M A) : Prop :=
  forall w,
    match m w with
    | Ok _ w' | Raise _ w' =>
        file w' = file w /\ storage w' = storage w
        /\ (List.length (stdin w') <= List.length (stdin w))%nat
    | Unmodelled | OutOfFuel => False
    end.

(** A call is tame when it does not run out of fuel and does not give
    back input; a loop body is advancing when, moreover, every round that
    goes round again has read a line. *)
Definition tame {A} (m : M A) : Prop :=
  forall w,
    match m w with
    | Ok _ w' | Raise _ w' => (List.length (stdin w') <= List.length (stdin w))%nat
    | Unmodelled => True
    | OutOfFuel => False
    end.

Definition advancing {S A} (m : M (S + A)) : Prop :=
  forall w,
    match m w with
    | Ok (inl _) w' => (List.length (stdin w') < List.length (stdin w))%nat
    | Ok (inr _) w' | Raise _ w' =>
        (List.length (stdin w') <= List.length (stdin w))%nat
    | Unmodelled => True
    | OutOfFuel => False
    end.

(** The shape of the marks in a dataset: the one-dimensional empty array
    when there is no student, otherwise a table with one row per student and
    one column per subject. *)
Definition table_invariant (subjects students : list string) (marks : ndarray) : Prop :=
  (students = [] /\ marks = Arr1 [])
  \/ (students <> []
      /\ exists rows,
           marks = Arr2 (List.length subjects) rows
           /\ List.length rows = List.length students
           /\ Forall (fun r => List.length r = List.length subjects) rows).

(** What holds of the file and the dataset at the head of the menu loop:
    the subjects are the default ones, the marks have the shape of
    [table_invariant], and the file holds the document of the dataset. *)
Definition store_invariant (f : file_state) (d : dataset) : Prop :=
  let '(subjects, students, marks) := d in
  subjects = default_subjects
  /\ table_invariant subjects students marks
  /\ f = Json (document subjects students marks).

Section Statements.

Variable py_int : string -> option Z.

(** An entry that [add_record] must reject: not an integer, or an
    integer below 0 or above 100. *)
Definition invalid_entry (line : string) : Prop :=
  py_int line = None \/ exists v, py_int line = Some v /\ (v < 0 \/ v > 100).

(** An entry that denotes the mark [v]. *)
Definition valid_entry (line : string) (v : Z) : Prop :=
  py_int line = Some v /\ in_range v.

(** The entries made for one subject: some that are rejected, then the
    one that denotes the mark [v]. *)
Definition entry_group (lines : list string) (v : Z) : Prop :=
  exists bad good,
    lines = bad ++ [good] /\ Forall invalid_entry bad /\ valid_entry good v.

(** What [add_record] prints when it rejects an entry. *)
Definition rejection (line : string) : event :=
  match py_int line with
  | Some _ => PrintColored "Mark should be between 0 and 100." RED
  | None => PrintColored "Please enter a valid integer." RED
  end.

(** The states of a run at the head of the menu loop of [main]:
    [reachable f d] when the loop can be entered with the dataset [d] while
    the file holds [f].  The first run finds no file, or one that is not
    JSON text; later runs find the file as the program left it; and every
    round of the menu leads from one state to the next. *)
Inductive reachable : file_state -> dataset -> Prop :=
| reach_first_run (w w' : world) (d : dataset) :
    file w = Absent \/ file w = Garbage ->
    initialize_data w = Ok d w' ->
    reachable (file w') d
| reach_next_run (f : file_state) (d d' : dataset) (w w' : world) :
    reachable f d ->
    file w = f ->
    initialize_data w = Ok d' w' ->
    reachable (file w') d'
| reach_round (f : file_state) (subjects students students' : list string)
              (marks marks' : ndarray) (w w' : world) :
    reachable f (subjects, students, marks) ->
    file w = f ->
    menu_round py_int subjects (students, marks) w = Ok (inl (students', marks')) w' ->
    reachable (file w') (subjects, students', marks').


End Statements.

(** The trace of a run of the script, and the file it leaves. *)
Definition run_trace (r : outcome unit) : list event :=
  match r with
  | Ok _ w | Raise _ w => trace w
  | Unmodelled | OutOfFuel => []
  end.

Definition run_file (r : outcome unit) : file_state :=
  match r with
  | Ok _ w | Raise _ w => file w
  | Unmodelled | OutOfFuel => Absent
  end.

(** A session on a fresh storage: Alice is added, the results are shown,
    Bob is added, the subjects are compared, and the user leaves. *)
Definition session : list string :=
  ["1"; "Alice"; "70"; "80"; "90"; "60"; "100";
   "2";
   "1"; "Bob"; "100"; "100"; "100"; "100"; "100";
   "4";
   "5"].

(* ===================================================================== *)
(** ** Definitions used by the further properties *)
(* ===================================================================== *)

(** What [initialize_data] prints after it has read the file. *)
Definition loaded_message : event :=
  PrintColored "Data loaded successfully." GREEN.

(** The three keys of the persisted document. *)
Definition document_keys : list string := ["subjects"; "students"; "marks"].

(** The first of the three keys that an object lacks, if one is missing. *)
Definition missing_key (members : list (string * json)) : option string :=
  find (fun k => match lookup k members with None => true | Some _ => false end)
       document_keys.

(** A call is read-only when it ends, by a return or an exception, with
    the file, the storage and the input as they were. *)
Definition read_only {A} (m : M A) : Prop :=
  forall w,
    match m w with
    | Ok _ w' | Raise _ w' =>
        file w' = file w /\ storage w' = storage w /\ stdin w' = stdin w
    | Unmodelled | OutOfFuel => False
    end.

(** The chart [analyze_trend] draws for a table with the rows [rows]: one
    line per subject, over the student indices. *)
Definition trend_chart (subjects students : list string) (rows : list (list Z))
  : list event :=
  [Plt Figure]
  ++ map (fun entry : nat * string =>
            Plt (Plot (seq 0 (List.length students))
                      (column_values rows (fst entry)) (snd entry)))
         (enumerate subjects)
  ++ [Plt (Title "Trend of Marks by Subject");
      Plt (XLabel "Student Index");
      Plt (YLabel "Marks");
      Plt Legend;
      Plt (XTicks (seq 0 (List.length students)) students);
      Plt Grid;
      Plt TightLayout;
      Plt ShowChart].

(** The last line of a session that the user leaves by choice 5. *)
Definition goodbye : event :=
  PrintColored
    "Thank you for using the Student Performance Analysis Program. Goodbye!" BOLD.

(** A file that holds the document of a dataset with at least one
    subject and marks of the shape of [table_invariant]. *)
Definition valid_file (f : file_state) : Prop :=
  exists subjects students marks,
    subjects <> []
    /\ table_invariant subjects students marks
    /\ f = Json (document subjects students marks).

(** Few enough values for a sum of marks to be exact as a double: at most
    2^46 of them, each at most 100. *)
Definition exact_count (n : nat) : Prop := Z.of_nat n <= 2 ^ 46.

(* ===================================================================== *)
(** ** Properties of the Dataset Store *)
(* ===================================================================== *)

Lemma app_trace_two {A} (l : list A) (a b : A) : (l ++ [a]) ++ [b] = l ++ [a; b].
Proof. now rewrite <- app_assoc. Qed.

(** With no file, or a file of text that is not JSON, and a storage that
    accepts the write, [initialize_data] returns the defaults and leaves
    them on file. *)
Lemma initialize_data_defaults (w : world) :
  file w = Absent \/ file w = Garbage ->
  writable w = true ->
  initialize_data w = Ok (default_subjects, [], Arr1 []) (fallback_world w).
Proof.
  intros Hfile Hw. destruct w as [f st inp tr]; simpl in *.
  destruct st; try discriminate.
  unfold fallback_world, fallback_messages; simpl.
  destruct Hfile; subst f;
    unfold initialize_data, try_except, bind, json_load_file; simpl;
    now rewrite app_trace_two.
Qed.

(** C4: when the persisted file is missing (and the storage accepts the
    write), [initialize_data] returns exactly the five default subjects, no
    student and the empty marks array, and on return the file holds the
    document of that default state: the five subjects, no student, no
    marks. *)
Theorem initialize_data_missing_file (w : world) :
  file w = Absent ->
  writable w = true ->
  exists w',
    initialize_data w
      = Ok (["English"; "Maths"; "Science"; "Social"; "History"], [], Arr1 []) w'
    /\ file w'
       = Json (JObj [("subjects",
                      JList [JStr "English"; JStr "Maths"; JStr "Science";
                             JStr "Social"; JStr "History"]);
                     ("students", JList []);
                     ("marks", JList [])])
    /\ stdin w' = stdin w.
Proof.
  intros Hfile Hw. exists (fallback_world w). split; [| split; reflexivity].
  apply initialize_data_defaults; auto.
Qed.

Lemma initialize_data_missing_file_witness :
  exists w',
    initialize_data (mkWorld Absent true ["5"] [])
      = Ok (["English"; "Maths"; "Science"; "Social"; "History"], [], Arr1 []) w'
    /\ file w'
       = Json (JObj [("subjects",
                      JList [JStr "English"; JStr "Maths"; JStr "Science";
                             JStr "Social"; JStr "History"]);
                     ("students", JList []);
                     ("marks", JList [])])
    /\ stdin w' = ["5"].
Proof.
  apply (initialize_data_missing_file (mkWorld Absent true ["5"] [])); reflexivity.
Defined.

(** C3, as amended: when there is no file, or the file holds text that is
    not JSON (so that [json.load] raises [JSONDecodeError]), and the storage
    accepts the write, [initialize_data] does not raise: it returns the
    default subjects, no student and the empty marks array, and has
    persisted that state, the document of the five subjects without
    students or marks, before it returns. *)
Theorem initialize_data_fallback (w : world) :
  file w = Absent \/ file w = Garbage ->
  writable w = true ->
  exists w',
    initialize_data w
      = Ok (["English"; "Maths"; "Science"; "Social"; "History"], [], Arr1 []) w'
    /\ file w'
       = Json (JObj [("subjects",
                      JList [JStr "English"; JStr "Maths"; JStr "Science";
                             JStr "Social"; JStr "History"]);
                     ("students", JList []);
                     ("marks", JList [])])
    /\ stdin w' = stdin w
    /\ trace w' = trace w ++ fallback_messages.
Proof.
  intros Hfile Hw. exists (fallback_world w).
  split; [now apply initialize_data_defaults | repeat split].
Qed.

Lemma initialize_data_fallback_witness :
  exists w',
    initialize_data (mkWorld Garbage true ["5"] [])
      = Ok (["English"; "Maths"; "Science"; "Social"; "History"], [], Arr1 []) w'
    /\ file w'
       = Json (JObj [("subjects",
                      JList [JStr "English"; JStr "Maths"; JStr "Science";
                             JStr "Social"; JStr "History"]);
                     ("students", JList []);
                     ("marks", JList [])])
    /\ stdin w' = ["5"]
    /\ trace w' = [] ++ fallback_messages.
Proof.
  apply (initialize_data_fallback (mkWorld Garbage true ["5"] []));
    [right; reflexivity | reflexivity].
Defined.

(** C3 fails as stated.  A file that is present and does not parse as the
    expected document makes [initialize_data] raise in each of these ways,
    none of which its [except] clause catches: the JSON document [{}] gives
    [KeyError]; a JSON list gives [TypeError]; bytes that are not text give
    [UnicodeDecodeError]; an integer literal beyond the digit limit gives
    [ValueError]; a path that cannot be opened for reading gives [OSError].
    And with no file, on a storage that refuses the write or fails in it,
    the [OSError] of [save_data] leaves [initialize_data], in the second
    case with a file left behind that holds no JSON text. *)
Lemma initialize_data_raises :
  initialize_data (mkWorld (Json (JObj [])) true [] [])
    = Raise (KeyError "subjects") (mkWorld (Json (JObj [])) true [] [])
  /\ initialize_data (mkWorld (Json (JList [])) true [] [])
    = Raise TypeError (mkWorld (Json (JList [])) true [] [])
  /\ initialize_data (mkWorld Undecodable true [] [])
    = Raise UnicodeDecodeError (mkWorld Undecodable true [] [])
  /\ initialize_data (mkWorld Overlong true [] [])
    = Raise ValueError (mkWorld Overlong true [] [])
  /\ initialize_data (mkWorld Unreadable true [] [])
    = Raise OSError (mkWorld Unreadable true [] [])
  /\ initialize_data (mkWorld Absent false [] [])
    = Raise OSError
        (mkWorld Absent false []
           [PrintColored "No existing data found. Initializing with default subjects."
              YELLOW])
  /\ initialize_data (World Absent FailsWrite [] [])
    = Raise OSError
        (World Garbage FailsWrite []
           [PrintColored "No existing data found. Initializing with default subjects."
              YELLOW]).
Proof. repeat split. Qed.

(** C8: [save_data] raises to its caller exactly when the storage does
    not accept the write, and then it raises [OSError]: with the file as it
    was when the storage refuses to open it, and with a file emptied of JSON
    text when the write fails after the file was opened.  A save that
    succeeds replaces whatever the file held by the whole document: the
    subjects, the students and every row of the marks, under their three
    keys. *)
Theorem save_data_surfaces_write_failure
    (subjects students : list string) (marks : ndarray) (w : world) :
  (writable w = false <-> exists e w', save_data subjects students marks w = Raise e w')
  /\ (forall e w', save_data subjects students marks w = Raise e w' -> e = OSError)
  /\ (storage w = RefusesOpen ->
      save_data subjects students marks w = Raise OSError w)
  /\ (storage w = FailsWrite ->
      save_data subjects students marks w
      = Raise OSError (World Garbage FailsWrite (stdin w) (trace w)))
  /\ (writable w = true ->
      exists w',
        save_data subjects students marks w = Ok tt w'
        /\ file w'
           = Json (JObj [("subjects", JList (map JStr subjects));
                         ("students", JList (map JStr students));
                         ("marks",
                          match marks with
                          | Arr1 xs => JList (map JInt xs)
                          | Arr2 _ rows =>
                              JList (map (fun r => JList (map JInt r)) rows)
                          end)])
        /\ stdin w' = stdin w
        /\ trace w' = trace w ++ [PrintColored "Data saved successfully." GREEN]).
Proof.
  destruct w as [f st inp tr].
  unfold save_data, bind, json_dump_file, writable; simpl.
  destruct st; simpl.
  - split; [split; [discriminate | intros (e & w' & H); discriminate] |].
    split; [discriminate |]. split; [discriminate |]. split; [discriminate |].
    intros _. eexists. split; [reflexivity |].
    split; [destruct marks; reflexivity | split; reflexivity].
  - split; [split; [intros _; eauto | reflexivity] |].
    split; [intros e w' H; now injection H |].
    split; [reflexivity |]. split; [discriminate | discriminate].
  - split; [split; [intros _; eauto | reflexivity] |].
    split; [intros e w' H; now injection H |].
    split; [discriminate |]. split; [reflexivity | discriminate].
Qed.

Lemma save_data_surfaces_write_failure_witness :
  save_data ["Maths"] ["Ann"] (Arr2 1 [[70]]) (World Garbage RefusesOpen [] [])
  = Raise OSError (World Garbage RefusesOpen [] [])
  /\ save_data ["Maths"] ["Ann"] (Arr2 1 [[70]])
               (World (Json (JObj [])) FailsWrite [] [])
     = Raise OSError (World Garbage FailsWrite [] [])
  /\ exists w',
       save_data ["Maths"] ["Ann"] (Arr2 1 [[70]]) (mkWorld Garbage true [] []) = Ok tt w'
       /\ file w'
          = Json (JObj [("subjects", JList (map JStr ["Maths"]));
                        ("students", JList (map JStr ["Ann"]));
                        ("marks", JList (map (fun r => JList (map JInt r)) [[70]]))])
       /\ stdin w' = []
       /\ trace w' = [] ++ [PrintColored "Data saved successfully." GREEN].
Proof.
  split; [| split].
  - apply (proj1 (proj2 (proj2 (save_data_surfaces_write_failure
                                  ["Maths"] ["Ann"] (Arr2 1 [[70]])
                                  (World Garbage RefusesOpen [] []))))).
    reflexivity.
  - apply (proj1 (proj2 (proj2 (proj2 (save_data_surfaces_write_failure
                                         ["Maths"] ["Ann"] (Arr2 1 [[70]])
                                         (World (Json (JObj [])) FailsWrite [] [])))))).
    reflexivity.
  - apply (proj2 (proj2 (proj2 (proj2 (save_data_surfaces_write_failure
                                         ["Maths"] ["Ann"] (Arr2 1 [[70]])
                                         (mkWorld Garbage true [] [])))))).
    reflexivity.
Defined.

(** The values that [initialize_data] reads back from a document. *)
Lemma as_strs_map_JStr (l : list string) : as_strs (map JStr l) = Some l.
Proof. induction l as [| s l IH]; simpl; [reflexivity | now rewrite IH]. Qed.

Lemma as_ints_map_JInt (r : list Z) : as_ints (map JInt r) = Some r.
Proof. induction r as [| z r IH]; simpl; [reflexivity | now rewrite IH]. Qed.

Lemma as_int_rows_map (rows : list (list Z)) :
  as_int_rows (map (fun r => JList (map JInt r)) rows) = Some rows.
Proof.
  induction rows as [| r rows IH]; simpl; [reflexivity |].
  now rewrite as_ints_map_JInt, IH.
Qed.

Lemma rectangular_Forall (c : nat) (rows : list (list Z)) :
  Forall (fun r => List.length r = c) rows -> rectangular c rows = true.
Proof.
  unfold rectangular. intros H. apply forallb_forall. intros r Hr.
  rewrite Forall_forall in H. apply Nat.eqb_eq. now apply H.
Qed.

Lemma np_array_tolist (a : ndarray) :
  wf_ndarray a -> np_array (tolist a) = Some (reloaded a).
Proof.
  destruct a as [xs | c rows]; simpl.
  - intros _. destruct xs as [| z xs]; simpl; [reflexivity |].
    now rewrite as_ints_map_JInt.
  - intros Hwf. destruct rows as [| r rows]; simpl; [reflexivity |].
    inversion Hwf as [| ? ? Hr Hrows]; subst.
    rewrite as_ints_map_JInt, as_int_rows_map.
    now rewrite rectangular_Forall.
Qed.


(** Loading a file that holds the document of a dataset. *)
Lemma initialize_data_document
    (subjects students : list string) (marks : ndarray) (w : world) :
  wf_ndarray marks ->
  file w = Json (document subjects students marks) ->
  initialize_data w
    = Ok (subjects, students, reloaded marks)
         (World (file w) (storage w) (stdin w)
                (trace w ++ [PrintColored "Data loaded successfully." GREEN])).
Proof.
  intros Hwf Hfile. destruct w as [f st inp tr]; simpl in *. subst f.
  unfold initialize_data, try_except, bind, json_load_file; simpl.
  rewrite (np_array_tolist marks Hwf); simpl.
  rewrite !as_strs_map_JStr; simpl. reflexivity.
Qed.




(* ===================================================================== *)
(** ** Properties of the Record Builder *)
(* ===================================================================== *)

Section RecordBuilder.

Variable py_int : string -> option Z.

Lemma in_range_test (v : Z) :
  ((0 <=? v) && (v <=? 100))%bool = true <-> in_range v.
Proof. unfold in_range. rewrite andb_true_iff, !Z.leb_le. tauto. Qed.

(** A rejected entry costs one round: the prompt is shown, the complaint
    printed, and the loop asks again. *)
Lemma read_mark_rejects (subject line : string) f st rest tr :
  invalid_entry py_int line ->
  read_mark py_int subject (World f st (line :: rest) tr)
  = read_mark py_int subject
      (World f st rest (tr ++ [Prompt (mark_prompt subject); rejection py_int line])).
Proof.
  intros Hinv. unfold read_mark, loop; simpl stdin; simpl List.length.
  change (while_true (S (S (List.length rest))) (mark_round py_int subject) tt)
    with (r <- mark_round py_int subject tt ;;
          match r with
          | inl s' => while_true (S (List.length rest)) (mark_round py_int subject) s'
          | inr a => ret a
          end)%py.
  unfold bind at 1.
  unfold mark_round at 1, try_except, bind, input, int, rejection; simpl.
  destruct Hinv as [Hnone | (v & Hsome & Hout)].
  - rewrite Hnone; simpl. now rewrite app_trace_two.
  - rewrite Hsome; simpl.
    destruct ((0 <=? v) && (v <=? 100))%bool eqn:E.
    + apply in_range_test in E. unfold in_range in E. lia.
    + simpl. now rewrite app_trace_two.
Qed.

(** A valid entry ends the loop with its mark. *)
Lemma read_mark_accepts (subject line : string) (v : Z) f st rest tr :
  valid_entry py_int line v ->
  read_mark py_int subject (World f st (line :: rest) tr)
  = Ok v (World f st rest (tr ++ [Prompt (mark_prompt subject)])).
Proof.
  intros [Hsome Hin]. unfold read_mark, loop; simpl.
  unfold bind at 1.
  unfold mark_round at 1, try_except, bind, input, int; simpl.
  rewrite Hsome; simpl.
  apply in_range_test in Hin. rewrite Hin. reflexivity.
Qed.

(** At the end of the input the loop is left by [EOFError]. *)
Lemma read_mark_eof (subject : string) f st tr :
  read_mark py_int subject (World f st [] tr)
  = Raise EOFError (World f st [] (tr ++ [Prompt (mark_prompt subject)])).
Proof. reflexivity. Qed.

Lemma entry_cases (line : string) :
  invalid_entry py_int line \/ exists v, valid_entry py_int line v.
Proof.
  unfold invalid_entry, valid_entry, in_range.
  destruct (py_int line) as [v |]; [| left; left; reflexivity].
  destruct (Z_lt_dec v 0); [left; right; exists v; split; auto |].
  destruct (Z_gt_dec v 100); [left; right; exists v; split; auto |].
  right. exists v. split; [reflexivity | lia].
Qed.

(** [read_mark] always ends, with a mark in range that one of the lines
    read denotes, or with [EOFError]; it touches neither the file nor the
    storage, and reads at least one line when it returns. *)
Lemma read_mark_result (subject : string) (w : world) :
  (exists v w' used,
      read_mark py_int subject w = Ok v w' /\ in_range v
      /\ (exists line, In line used /\ py_int line = Some v)
      /\ stdin w = used ++ stdin w' /\ used <> []
      /\ file w' = file w /\ storage w' = storage w)
  \/ (exists w',
      read_mark py_int subject w = Raise EOFError w'
      /\ file w' = file w /\ storage w' = storage w /\ stdin w' = []).
Proof.
  destruct w as [f st inp tr]. revert tr.
  induction inp as [| line rest IH]; intros tr.
  - right. rewrite read_mark_eof. eexists; repeat split.
  - destruct (entry_cases line) as [Hinv | (v & Hval)].
    + rewrite (read_mark_rejects subject line f st rest tr Hinv).
      destruct (IH (tr ++ [Prompt (mark_prompt subject); rejection py_int line]))
        as [(v & w' & used & Hrun & Hin & (l & Hl & Hv) & Hused & Hne & Hf & Hw)
           | (w' & Hrun & Hf & Hw & Hin)].
      * left. exists v, w', (line :: used). simpl in *.
        split; [exact Hrun |]. split; [exact Hin |].
        split; [exists l; auto |].
        split; [now rewrite Hused |]. repeat split; auto; discriminate.
      * right. exists w'. simpl in *. repeat split; auto.
    + left. rewrite (read_mark_accepts subject line v f st rest tr Hval).
      eexists; eexists; exists [line]. split; [reflexivity |].
      destruct Hval as [Hv Hin]. simpl.
      split; [exact Hin |]. split; [exists line; auto |].
      repeat split; auto; discriminate.
Qed.

Lemma for_each_cons {A B} (x : A) (xs : list A) (body : A -> M B) (w : world) :
  for_each (x :: xs) body w
  = match body x w with
    | Ok b w1 =>
        match for_each xs body w1 with
        | Ok bs w2 => Ok (b :: bs) w2
        | Raise e w' => Raise e w'
        | Unmodelled => Unmodelled
        | OutOfFuel => OutOfFuel
        end
    | Raise e w' => Raise e w'
    | Unmodelled => Unmodelled
    | OutOfFuel => OutOfFuel
    end.
Proof. reflexivity. Qed.

(** [read_marks] ends with one mark in range per subject, each denoted by
    a line that was read, or with [EOFError]. *)
Lemma read_marks_result (subjects : list string) (w : world) :
  (exists vs w' used,
      read_marks py_int subjects w = Ok vs w'
      /\ List.length vs = List.length subjects
      /\ Forall in_range vs
      /\ Forall (fun v => exists line, In line used /\ py_int line = Some v) vs
      /\ stdin w = used ++ stdin w'
      /\ file w' = file w /\ storage w' = storage w)
  \/ (exists w',
      read_marks py_int subjects w = Raise EOFError w'
      /\ file w' = file w /\ storage w' = storage w /\ stdin w' = []).
Proof.
  revert w. induction subjects as [| subject rest IH]; intros w.
  - left. exists [], w, []. repeat split; auto.
  - unfold read_marks in *. rewrite for_each_cons.
    destruct (read_mark_result subject w)
      as [(v & w1 & used1 & Hrun & Hin & (l & Hl & Hv) & Hused & _ & Hf & Hw)
         | (w1 & Hrun & Hf & Hw & Hin)]; rewrite Hrun.
    + destruct (IH w1)
        as [(vs & w2 & used2 & Hrun2 & Hlen & Hall & Hfrom & Hused2 & Hf2 & Hw2)
           | (w2 & Hrun2 & Hf2 & Hw2 & Hin2)]; rewrite Hrun2.
      * left. exists (v :: vs), w2, (used1 ++ used2). simpl.
        split; [reflexivity |]. split; [now rewrite Hlen |].
        split; [now constructor |].
        split.
        { constructor.
          - exists l. split; [apply in_or_app; now left | exact Hv].
          - eapply Forall_impl; [| exact Hfrom].
            intros v' (l' & Hl' & Hv'). exists l'.
            split; [apply in_or_app; now right | exact Hv']. }
        split; [now rewrite Hused, Hused2, app_assoc |].
        split; congruence.
      * right. exists w2. split; [reflexivity |]. repeat split; congruence.
    + right. exists w1. split; [reflexivity |]. repeat split; auto.
Qed.

(** On valid entries, one per subject, [read_marks] returns their marks
    after one prompt each. *)
Lemma read_marks_valid (subjects lines : list string) (values : list Z) f st rest tr :
  Forall2 (valid_entry py_int) lines values ->
  List.length values = List.length subjects ->
  read_marks py_int subjects (World f st (lines ++ rest) tr)
  = Ok values
       (World f st rest
          (tr ++ map (fun subject => Prompt (mark_prompt subject)) subjects)).
Proof.
  intros Hvalid. revert subjects tr.
  induction Hvalid as [| line v lines values Hv Hrest IH]; intros subjects tr Hlen.
  - destruct subjects; [| discriminate]. simpl. now rewrite app_nil_r.
  - destruct subjects as [| subject subjects]; [discriminate |].
    simpl in Hlen. injection Hlen as Hlen.
    unfold read_marks in *. rewrite for_each_cons. simpl app.
    rewrite (read_mark_accepts subject line v f st (lines ++ rest) tr Hv).
    rewrite (IH subjects _ Hlen). simpl.
    now rewrite <- app_assoc.
Qed.

(** Entries for one subject, the last one valid: [read_mark] asks again
    after each rejected entry and returns the mark of the last. *)
Lemma read_mark_group (subject : string) (lines : list string) (v : Z) f st rest tr :
  entry_group py_int lines v ->
  exists tr',
    read_mark py_int subject (World f st (lines ++ rest) tr)
    = Ok v (World f st rest tr').
Proof.
  intros (bad & good & -> & Hbad & Hgood). revert tr.
  induction Hbad as [| line bad Hline Hbad IH]; intros tr; simpl.
  - eexists. now apply read_mark_accepts.
  - rewrite (read_mark_rejects subject line f st _ tr Hline). apply IH.
Qed.

Lemma read_marks_groups (subjects : list string) (groups : list (list string))
    (values : list Z) f st rest tr :
  Forall2 (entry_group py_int) groups values ->
  List.length values = List.length subjects ->
  exists tr',
    read_marks py_int subjects (World f st (List.concat groups ++ rest) tr)
    = Ok values (World f st rest tr').
Proof.
  intros Hgroups. revert subjects tr.
  induction Hgroups as [| lines v groups values Hv Hrest IH]; intros subjects tr Hlen.
  - destruct subjects; [| discriminate]. simpl. now exists tr.
  - destruct subjects as [| subject subjects]; [discriminate |].
    simpl in Hlen. injection Hlen as Hlen.
    unfold read_marks in *. rewrite for_each_cons. simpl List.concat.
    rewrite <- app_assoc.
    destruct (read_mark_group subject lines v f st (List.concat groups ++ rest) tr Hv)
      as (tr1 & ->).
    destruct (IH subjects tr1 Hlen) as (tr2 & ->).
    now exists tr2.
Qed.

(** The branch of [stack_row] on a table of [c] columns: the row is
    appended, provided the table has a column or has no row. *)
Lemma stack_row_table (c : nat) (rows : list (list Z)) (marks : ndarray)
    (new_marks : list Z) :
  marks_table c rows marks ->
  List.length new_marks = c ->
  c <> 0%nat \/ rows = [] ->
  stack_row marks new_marks = inr (Arr2 c (rows ++ [new_marks])).
Proof.
  intros [[Hm Hr] | [Hm Hwf]] Hlen Hc; subst marks.
  - subst rows. unfold stack_row, np_array_row; simpl. now rewrite Hlen.
  - unfold stack_row; simpl.
    destruct (List.length rows * c)%nat eqn:Hsize; simpl.
    + destruct rows as [| r rows]; [unfold np_array_row; now rewrite Hlen |].
      destruct Hc as [Hc | Hc]; [| discriminate]. simpl in Hsize. lia.
    + rewrite Hlen, Nat.eqb_refl. reflexivity.
Qed.

(** Whatever array it starts from, [stack_row] fails or builds a table
    whose rows all have the length of the new row, which comes last. *)
Lemma stack_row_rectangular (marks marks' : ndarray) (new_marks : list Z) :
  wf_ndarray marks ->
  stack_row marks new_marks = inr marks' ->
  exists rows,
    marks' = Arr2 (List.length new_marks) (rows ++ [new_marks])
    /\ Forall (fun r => List.length r = List.length new_marks) (rows ++ [new_marks]).
Proof.
  intros Hwf. unfold stack_row.
  destruct (negb (Nat.eqb (size marks) 0)).
  - destruct marks as [xs | c rows]; simpl.
    + destruct (Nat.eqb (List.length xs) (List.length new_marks)) eqn:E; [| discriminate].
      apply Nat.eqb_eq in E. intros H; injection H as <-.
      exists [xs]. rewrite E. split; [reflexivity |].
      repeat constructor. exact E.
    + destruct (Nat.eqb c (List.length new_marks)) eqn:E; [| discriminate].
      apply Nat.eqb_eq in E. intros H; injection H as <-. subst c.
      exists rows. split; [reflexivity |].
      apply Forall_app. split; [exact Hwf | repeat constructor].
  - intros H; injection H as <-. exists []. split; [reflexivity |].
    repeat constructor.
Qed.

(** [add_record], step by step. *)
Lemma add_record_unfold (subjects students : list string) (marks : ndarray) f st inp tr :
  add_record py_int subjects students marks (World f st inp tr)
  = let tr1 := tr ++ [PrintColored (newline ++ "Adding a new student record") HEADER;
                      Prompt "Enter student name: "] in
    match inp with
    | [] => Raise EOFError (World f st [] tr1)
    | student_name :: rest =>
        match read_marks py_int subjects (World f st rest tr1) with
        | Ok new_marks w2 =>
            match stack_row marks new_marks with
            | inl e => Raise e w2
            | inr marks' =>
                match storage w2 with
                | Accepts =>
                    Ok (students ++ [student_name], marks')
                       (World (Json (document subjects (students ++ [student_name]) marks'))
                              Accepts (stdin w2)
                              (trace w2 ++ [PrintColored "Data saved successfully." GREEN;
                                            PrintColored "Record added successfully." GREEN]))
                | RefusesOpen => Raise OSError w2
                | FailsWrite =>
                    Raise OSError (World Garbage FailsWrite (stdin w2) (trace w2))
                end
            end
        | Raise e w' => Raise e w'
        | Unmodelled => Unmodelled
        | OutOfFuel => OutOfFuel
        end
    end.
Proof.
  unfold add_record, bind, print_colored, emit, input; simpl.
  rewrite app_trace_two.
  destruct inp as [| student_name rest]; [reflexivity |].
  destruct (read_marks py_int subjects _) as [new_marks w2 | | |]; try reflexivity.
  destruct (stack_row marks new_marks) as [e | marks']; simpl; [reflexivity |].
  unfold save_data, bind, json_dump_file, print_colored, emit; simpl.
  destruct (storage w2); simpl; try reflexivity.
  now rewrite app_trace_two.
Qed.

(** What a returning [add_record] has done: it read a name and one valid
    mark per subject, stacked the row of these marks, and saved. *)
Lemma add_record_ok (subjects students students' : list string)
    (marks marks' : ndarray) (w w' : world) :
  add_record py_int subjects students marks w = Ok (students', marks') w' ->
  exists student_name used new_marks,
    students' = students ++ [student_name]
    /\ stdin w = student_name :: used ++ stdin w'
    /\ List.length new_marks = List.length subjects
    /\ Forall in_range new_marks
    /\ Forall (fun v => exists line, In line used /\ py_int line = Some v) new_marks
    /\ stack_row marks new_marks = inr marks'
    /\ writable w = true
    /\ file w' = Json (document subjects students' marks').
Proof.
  destruct w as [f st inp tr]. rewrite add_record_unfold. cbv zeta.
  destruct inp as [| student_name rest]; [discriminate |].
  match goal with
  | |- context [read_marks py_int subjects ?w1] =>
      destruct (read_marks_result subjects w1)
        as [(vs & w2 & used & Hrun & Hlen & Hall & Hfrom & Hused & Hf & Hw)
           | (w2 & Hrun & _)]; rewrite Hrun; [| discriminate]
  end.
  destruct (stack_row marks vs) as [e | m'] eqn:Hstack; [discriminate |].
  destruct (storage w2) eqn:Hw2; try discriminate.
  intros H. injection H as <- <- <-. simpl in *.
  exists student_name, used, vs. unfold writable; simpl.
  repeat split; auto; try congruence.
  now rewrite <- Hw.
Qed.

(** [add_record] run on a name and one valid entry per subject. *)
Lemma add_record_valid (subjects students lines : list string) (values : list Z)
    (marks marks' : ndarray) (student_name : string) f rest tr :
  Forall2 (valid_entry py_int) lines values ->
  List.length values = List.length subjects ->
  stack_row marks values = inr marks' ->
  add_record py_int subjects students marks
             (World f Accepts (student_name :: lines ++ rest) tr)
  = Ok (students ++ [student_name], marks')
       (World (Json (document subjects (students ++ [student_name]) marks'))
                Accepts rest (tr ++ add_record_events subjects)).
Proof.
  intros Hvalid Hlen Hstack. rewrite add_record_unfold. cbv zeta.
  rewrite (read_marks_valid subjects lines values f Accepts rest _ Hvalid Hlen).
  rewrite Hstack. simpl. unfold add_record_events.
  now rewrite <- !app_assoc.
Qed.

(** [add_record] run on a name and, for every subject, entries that end
    with a valid one: the row is made of the valid marks. *)
Lemma add_record_groups (subjects students : list string) (groups : list (list string))
    (values : list Z) (marks marks' : ndarray) (student_name : string) f rest tr :
  Forall2 (entry_group py_int) groups values ->
  List.length values = List.length subjects ->
  stack_row marks values = inr marks' ->
  exists tr',
    add_record py_int subjects students marks
               (World f Accepts (student_name :: List.concat groups ++ rest) tr)
    = Ok (students ++ [student_name], marks')
         (World (Json (document subjects (students ++ [student_name]) marks'))
                  Accepts rest tr').
Proof.
  intros Hgroups Hlen Hstack. rewrite add_record_unfold. cbv zeta.
  destruct (read_marks_groups subjects groups values f Accepts rest
              (tr ++ [PrintColored (newline ++ "Adding a new student record") HEADER;
                      Prompt "Enter student name: "]) Hgroups Hlen) as (tr1 & ->).
  rewrite Hstack. simpl. eexists. reflexivity.
Qed.

(** C2, as amended: for a marks table of R rows and C columns, C the
    number of subjects, with C at least 1 or R equal to 0, [add_record] run
    on a name and a valid row of C entries, on a storage that accepts the
    save, returns the table of R+1 rows and C columns whose first R rows are
    the old ones and whose last row is the entered values in subject order
    (a 1-by-C table when there was no row), and saves it.  Moreover every
    table [add_record] returns is rectangular, its rows as long as the
    subject list. *)
Theorem add_record_appends_row
    (subjects students lines : list string) (values : list Z)
    (rows : list (list Z)) (marks : ndarray) (student_name : string)
    (f : file_state) (rest : list string) (tr : list event) :
  marks_table (List.length subjects) rows marks ->
  subjects <> [] \/ rows = [] ->
  Forall2 (valid_entry py_int) lines values ->
  List.length values = List.length subjects ->
  (exists w',
      add_record py_int subjects students marks
                 (mkWorld f true (student_name :: lines ++ rest) tr)
      = Ok (students ++ [student_name],
            Arr2 (List.length subjects) (rows ++ [values])) w'
      /\ nrows (Arr2 (List.length subjects) (rows ++ [values])) = S (List.length rows)
      /\ file w'
         = Json (document subjects (students ++ [student_name])
                          (Arr2 (List.length subjects) (rows ++ [values]))))
  /\ (forall students0 marks0 w0 students' marks' w',
        wf_ndarray marks0 ->
        add_record py_int subjects students0 marks0 w0 = Ok (students', marks') w' ->
        exists rows',
          marks' = Arr2 (List.length subjects) rows'
          /\ Forall (fun r => List.length r = List.length subjects) rows').
Proof.
  intros Htable Hcols Hvalid Hlen. split.
  - assert (Hstack : stack_row marks values
                     = inr (Arr2 (List.length subjects) (rows ++ [values]))).
    { apply stack_row_table; [exact Htable | exact Hlen |].
      destruct Hcols as [Hs | Hr]; [left | now right].
      destruct subjects; [now elim Hs | discriminate]. }
    unfold mkWorld.
    rewrite (add_record_valid subjects students lines values marks _ student_name
               f rest tr Hvalid Hlen Hstack).
    eexists. split; [reflexivity |]. split; [| reflexivity].
    simpl. rewrite length_app. simpl. lia.
  - intros students0 marks0 w0 students' marks' w' Hwf Hrun.
    apply add_record_ok in Hrun.
    destruct Hrun as (name & used & new_marks & _ & _ & Hl & _ & _ & Hstack & _).
    destruct (stack_row_rectangular _ _ _ Hwf Hstack) as (rows' & -> & Hall).
    rewrite Hl in *. eexists; split; [reflexivity | exact Hall].
Qed.

(** C5: an entry that is not an integer, or is below 0 or above 100, is
    rejected and asked for again; when the entries for every subject end
    with a valid one, [add_record] appends the row of these valid marks; and
    whenever [add_record] returns, the row it has appended holds exactly one
    mark per subject, each an integer of [0, 100] that a line of the input
    denotes. *)
Theorem add_record_rejects_invalid_marks :
  (forall (subject line : string) f st rest tr,
      invalid_entry py_int line ->
      read_mark py_int subject (World f st (line :: rest) tr)
      = read_mark py_int subject
          (World f st rest
             (tr ++ [Prompt (mark_prompt subject); rejection py_int line])))
  /\ (forall subjects students groups values marks marks' student_name f rest tr,
        Forall2 (entry_group py_int) groups values ->
        List.length values = List.length subjects ->
        stack_row marks values = inr marks' ->
        exists tr',
          add_record py_int subjects students marks
                     (mkWorld f true (student_name :: List.concat groups ++ rest) tr)
          = Ok (students ++ [student_name], marks')
               (mkWorld (Json (document subjects (students ++ [student_name]) marks'))
                        true rest tr'))
  /\ (forall subjects students marks w students' marks' w',
        add_record py_int subjects students marks w = Ok (students', marks') w' ->
        exists c rows new_marks,
          marks' = Arr2 c (rows ++ [new_marks])
          /\ List.length new_marks = List.length subjects
          /\ Forall in_range new_marks
          /\ Forall (fun v => exists line, In line (stdin w) /\ py_int line = Some v)
                    new_marks).
Proof.
  split; [| split].
  - intros. now apply read_mark_rejects.
  - intros subjects students groups values marks marks' student_name f rest tr
           Hgroups Hlen Hstack.
    exact (add_record_groups subjects students groups values marks marks'
             student_name f rest tr Hgroups Hlen Hstack).
  - intros subjects students marks w students' marks' w' Hrun.
    apply add_record_ok in Hrun.
    destruct Hrun as (name & used & new_marks & _ & Hin & Hl & Hall & Hfrom & Hstack & _).
    assert (Hshape : exists c rows, marks' = Arr2 c (rows ++ [new_marks])).
    { unfold stack_row in Hstack.
      destruct (negb (Nat.eqb (size marks) 0)).
      - destruct marks as [xs | c rows]; simpl in Hstack.
        + destruct (Nat.eqb _ _); [| discriminate].
          injection Hstack as <-. now exists (List.length xs), [xs].
        + destruct (Nat.eqb _ _); [| discriminate].
          injection Hstack as <-. now exists c, rows.
      - injection Hstack as <-. now exists (List.length new_marks), []. }
    destruct Hshape as (c & rows & ->).
    exists c, rows, new_marks. repeat split; auto.
    eapply Forall_impl; [| exact Hfrom].
    intros v (line & Hline & Hv). exists line. split; [| exact Hv].
    rewrite Hin. right. apply in_or_app. now left.
Qed.

End RecordBuilder.

Lemma add_record_appends_row_witness :
  (exists w',
      add_record decimal_int ["Maths"; "Science"] ["Alice"] (Arr2 2 [[70; 80]])
                 (mkWorld Absent true ("Bob" :: ["100"; "0"] ++ ["5"]) [])
      = Ok (["Alice"] ++ ["Bob"], Arr2 2 ([[70; 80]] ++ [[100; 0]])) w'
      /\ nrows (Arr2 2 ([[70; 80]] ++ [[100; 0]])) = 2%nat
      /\ file w'
         = Json (document ["Maths"; "Science"] (["Alice"] ++ ["Bob"])
                          (Arr2 2 ([[70; 80]] ++ [[100; 0]]))))
  /\ (forall students0 marks0 w0 students' marks' w',
        wf_ndarray marks0 ->
        add_record decimal_int ["Maths"; "Science"] students0 marks0 w0
        = Ok (students', marks') w' ->
        exists rows',
          marks' = Arr2 2 rows'
          /\ Forall (fun r => List.length r = 2%nat) rows').
Proof.
  apply (add_record_appends_row decimal_int ["Maths"; "Science"] ["Alice"]
           ["100"; "0"] [100; 0] [[70; 80]] (Arr2 2 [[70; 80]]) "Bob" Absent ["5"] []).
  - right. split; [reflexivity | repeat constructor].
  - left. discriminate.
  - repeat constructor; unfold in_range; simpl; lia.
  - reflexivity.
Defined.

(** C2 fails as stated when there is no subject: a table of one row and
    no column has no element, so [add_record] takes it for empty and
    returns a table of one row instead of two. *)
Lemma add_record_zero_subjects :
  marks_table (List.length (@nil string)) [[]] (Arr2 0 [[]])
  /\ nrows (Arr2 0 [[]]) = 1%nat
  /\ Forall2 (valid_entry decimal_int) [] []
  /\ add_record decimal_int [] ["a"] (Arr2 0 [[]]) (mkWorld Absent true ["b"] [])
     = Ok (["a"; "b"], Arr2 0 [[]])
          (mkWorld (Json (document [] ["a"; "b"] (Arr2 0 [[]]))) true []
                   (add_record_events []))
  /\ nrows (Arr2 0 [[]]) <> (1 + 1)%nat
  /\ Arr2 0 [[]] <> Arr2 0 ([[]] ++ [[]]).
Proof.
  split; [right; split; [reflexivity | repeat constructor] |].
  split; [reflexivity |]. split; [constructor |].
  split; [vm_compute; reflexivity |]. split; discriminate.
Qed.

Lemma add_record_rejects_invalid_marks_witness :
  read_mark decimal_int "Maths" (mkWorld Absent true ["101"; "abc"; "-1"; "7"] [])
  = read_mark decimal_int "Maths"
      (mkWorld Absent true ["abc"; "-1"; "7"]
         ([] ++ [Prompt (mark_prompt "Maths"); rejection decimal_int "101"]))
  /\ (exists tr',
        add_record decimal_int ["Maths"] [] (Arr1 [])
                   (mkWorld Absent true ("Ann" :: List.concat [["101"; "abc"; "-1"; "7"]] ++ []) [])
        = Ok ([] ++ ["Ann"], Arr2 1 [[7]])
             (mkWorld (Json (document ["Maths"] ([] ++ ["Ann"]) (Arr2 1 [[7]])))
                      true [] tr'))
  /\ exists c rows new_marks,
       Arr2 1 [[7]] = Arr2 c (rows ++ [new_marks])
       /\ List.length new_marks = 1%nat
       /\ Forall in_range new_marks
       /\ Forall (fun v => exists line,
                     In line ["Ann"; "101"; "abc"; "-1"; "7"]
                     /\ decimal_int line = Some v) new_marks.
Proof.
  split; [| split].
  - apply (proj1 (add_record_rejects_invalid_marks decimal_int)).
    right. exists 101. split; [reflexivity | lia].
  - apply (proj1 (proj2 (add_record_rejects_invalid_marks decimal_int))
             ["Maths"] [] [["101"; "abc"; "-1"; "7"]] [7] (Arr1 []) (Arr2 1 [[7]])
             "Ann" Absent [] []).
    + constructor; [| constructor].
      exists ["101"; "abc"; "-1"], "7". split; [reflexivity |]. split.
      * apply Forall_cons; [right; exists 101; split; [reflexivity | lia] |].
        apply Forall_cons; [left; reflexivity |].
        apply Forall_cons; [right; exists (-1); split; [reflexivity | lia] |].
        apply Forall_nil.
      * split; [reflexivity | unfold in_range; lia].
    + reflexivity.
    + reflexivity.
  - apply (proj2 (proj2 (add_record_rejects_invalid_marks decimal_int))
             ["Maths"] [] (Arr1 [])
             (mkWorld Absent true ["Ann"; "101"; "abc"; "-1"; "7"] [])
             ["Ann"] (Arr2 1 [[7]])
             (mkWorld (Json (document ["Maths"] ["Ann"] (Arr2 1 [[7]]))) true []
                ([] ++ [PrintColored (newline ++ "Adding a new student record") HEADER;
                        Prompt "Enter student name: ";
                        Prompt (mark_prompt "Maths");
                        rejection decimal_int "101";
                        Prompt (mark_prompt "Maths");
                        rejection decimal_int "abc";
                        Prompt (mark_prompt "Maths");
                        rejection decimal_int "-1";
                        Prompt (mark_prompt "Maths");
                        PrintColored "Data saved successfully." GREEN;
                        PrintColored "Record added successfully." GREEN]))).
    vm_compute. reflexivity.
Defined.

(* ===================================================================== *)
(** ** Properties of the Statistics Module *)
(* ===================================================================== *)

Lemma shows_shows (w : world) (e1 e2 : list event) :
  shows (shows w e1) e2 = shows w (e1 ++ e2).
Proof. unfold shows; simpl. now rewrite app_assoc. Qed.

Lemma emit_shows (ev : event) (w : world) : emit ev w = Ok tt (shows w [ev]).
Proof. reflexivity. Qed.

Lemma bind_emit {B} (ev : event) (k : unit -> M B) (w : world) :
  bind (emit ev) k w = k tt (shows w [ev]).
Proof. reflexivity. Qed.

Lemma for_each_emit {A} (xs : list A) (ev : A -> event) (w : world) :
  for_each xs (fun x => emit (ev x)) w
  = Ok (map (fun _ => tt) xs) (shows w (map ev xs)).
Proof.
  revert w. induction xs as [| x xs IH]; intros w.
  - unfold shows; simpl. rewrite app_nil_r. now destruct w.
  - rewrite for_each_cons, emit_shows, IH, shows_shows. reflexivity.
Qed.

Lemma zsum_abs_in_range (xs : list Z) :
  Forall in_range xs ->
  0 <= zsum (map Z.abs xs) <= 100 * Z.of_nat (List.length xs).
Proof.
  induction 1 as [| x xs Hx Hxs IH]; simpl zsum; [simpl; lia |].
  unfold in_range in Hx. simpl map. simpl zsum.
  rewrite length_cons, Nat2Z.inj_succ. lia.
Qed.

(** The mean of marks in range, when they are not too many, is the double
    quotient of their sum by their number. *)
Lemma np_mean_exact (xs : list Z) :
  Forall in_range xs ->
  exact_count (List.length xs) ->
  np_mean xs
  = Double (double_div (double_of_Z (zsum xs))
                       (double_of_Z (Z.of_nat (List.length xs)))).
Proof.
  intros Hxs Hcount. unfold np_mean, quotient.
  pose proof (zsum_abs_in_range xs Hxs) as Hsum.
  unfold exact_count in Hcount. unfold exact_bound.
  change (2 ^ 53) with 9007199254740992.
  change (2 ^ 46) with 70368744177664 in Hcount.
  assert (H1 : (zsum (map Z.abs xs) <? 9007199254740992) = true)
    by (apply Z.ltb_lt; lia).
  assert (H2 : (Z.of_nat (List.length xs) <? 9007199254740992) = true)
    by (apply Z.ltb_lt; lia).
  now rewrite H1, H2.
Qed.

Lemma add_rows_length (acc r : list Z) :
  List.length acc = List.length r ->
  List.length (add_rows acc r) = List.length r.
Proof.
  revert r. induction acc as [| a acc IH]; intros [| x r]; simpl; try discriminate; auto.
Qed.

Lemma add_rows_nth (acc r : list Z) (j : nat) :
  List.length acc = List.length r ->
  nth j (add_rows acc r) 0 = nth j acc 0 + nth j r 0.
Proof.
  revert r j. induction acc as [| a acc IH]; intros [| x r] j; simpl; try discriminate.
  - now destruct j.
  - intros H. destruct j; [reflexivity |]. apply IH. now injection H.
Qed.

(** Adding up the rows of a table gives the column sums. *)
Lemma fold_add_rows (c : nat) (rows : list (list Z)) (acc : list Z) :
  Forall (fun r => List.length r = c) rows ->
  List.length acc = c ->
  List.length (fold_left add_rows rows acc) = c
  /\ forall j, nth j (fold_left add_rows rows acc) 0
               = nth j acc 0 + zsum (column_values rows j).
Proof.
  intros Hwf. revert acc. induction Hwf as [| r rows Hr Hrows IH]; intros acc Hacc; simpl.
  - split; [exact Hacc | intros j; lia].
  - assert (Hlen : List.length acc = List.length r) by congruence.
    destruct (IH (add_rows acc r)) as [IHlen IHnth].
    { rewrite add_rows_length; auto. }
    split; [exact IHlen |]. intros j.
    rewrite IHnth, add_rows_nth by exact Hlen. lia.
Qed.

Lemma nth_repeat_zero (c j : nat) : nth j (repeat 0 c) 0 = 0.
Proof. revert j. induction c; intros [| j]; simpl; auto. Qed.

Lemma column_values_abs (rows : list (list Z)) (j : nat) :
  column_values (map (map Z.abs) rows) j = map Z.abs (column_values rows j).
Proof.
  unfold column_values. rewrite !map_map. apply map_ext. intros r.
  change 0 with (Z.abs 0) at 1. apply map_nth.
Qed.

(** The vector [np.mean(a, axis=0)] of a table: entry [j] is the mean of
    column [j]. *)
Lemma np_mean_axis0_columns (c : nat) (rows : list (list Z)) :
  Forall (fun r => List.length r = c) rows ->
  exists ms,
    np_mean_axis0 (Arr2 c rows) = MeanVector ms
    /\ List.length ms = c
    /\ forall j, (j < c)%nat -> nth j ms Undetermined = np_mean (column_values rows j).
Proof.
  intros Hwf. eexists. split; [reflexivity |].
  assert (Hwf' : Forall (fun r => List.length r = c) (map (map Z.abs) rows)).
  { apply Forall_map. eapply Forall_impl; [| exact Hwf].
    intros r Hr. now rewrite length_map. }
  destruct (fold_add_rows c rows (repeat 0 c) Hwf (repeat_length 0 c)) as [Hlen Hnth].
  destruct (fold_add_rows c (map (map Z.abs) rows) (repeat 0 c) Hwf' (repeat_length 0 c))
    as [Hlen' Hnth'].
  split; [rewrite length_map, length_combine, Hlen, Hlen'; lia |].
  intros j Hj.
  rewrite (nth_indep _ Undetermined (quotient 0 0 (List.length rows)))
    by (rewrite length_map, length_combine, Hlen, Hlen'; lia).
  change (quotient 0 0 (List.length rows))
    with ((fun tw : Z * Z => quotient (fst tw) (snd tw) (List.length rows)) (0, 0)).
  rewrite map_nth, combine_nth by congruence. simpl fst. simpl snd.
  rewrite Hnth, Hnth', !nth_repeat_zero, column_values_abs. simpl.
  unfold np_mean, column_values. now rewrite !length_map.
Qed.

Lemma bind_ok {A B} (m : M A) (k : A -> M B) (a : A) (w w' : world) :
  m w = Ok a w' -> bind m k w = k a w'.
Proof. intros H. unfold bind. now rewrite H. Qed.

(** [plt.bar] draws when it gets one height per subject. *)
Lemma plt_bar_draws (subjects : list string) (ms : list npfloat) (w : world) :
  List.length ms = List.length subjects ->
  plt_bar subjects (MeanVector ms) w
  = Ok ms (shows w [Plt (Bar subjects (MeanVector ms))]).
Proof.
  intros Hlen. unfold plt_bar, bar_heights.
  apply Nat.eqb_eq in Hlen. rewrite Hlen. reflexivity.
Qed.

Lemma subject_comparison_draws (subjects students : list string)
    (rows : list (list Z)) (ms : list npfloat) (w : world) :
  subjects <> [] ->
  rows <> [] ->
  np_mean_axis0 (Arr2 (List.length subjects) rows) = MeanVector ms ->
  List.length ms = List.length subjects ->
  subject_comparison subjects students (Arr2 (List.length subjects) rows) w
  = Ok tt (shows w (comparison_chart subjects ms)).
Proof.
  intros Hs Hr Hms Hlen. unfold subject_comparison.
  assert (Hsize : Nat.eqb (size (Arr2 (List.length subjects) rows)) 0 = false).
  { apply Nat.eqb_neq. simpl.
    destruct subjects; [now elim Hs |]. destruct rows; [now elim Hr |]. simpl. lia. }
  rewrite Hsize. cbv zeta. rewrite Hms.
  unfold plt at 1. rewrite bind_emit.
  rewrite (bind_ok _ _ _ _ _ (plt_bar_draws subjects ms _ Hlen)).
  unfold plt. rewrite !bind_emit.
  rewrite (bind_ok _ _ _ _ _ (for_each_emit ms (fun height => Plt (Text height)) _)).
  rewrite !bind_emit. rewrite emit_shows, !shows_shows.
  unfold comparison_chart. simpl.
  repeat rewrite <- app_assoc. reflexivity.
Qed.

(** C6: the subject averages are the vector [np.mean(marks, axis=0)]:
    for a marks table of marks in range with at least one row, one value per
    subject, the arithmetic mean down that column, that is the double
    quotient of the sum of the column by the number of rows; on
    [[100,100],[0,0]] they are [50.0, 50.0]; the bar chart of a table with
    one column per subject shows the vector, one bar and one label per
    subject; and on a table without rows the operation prints its no-data
    message and computes nothing. *)
Theorem subject_averages_are_column_means :
  (forall (c : nat) (rows : list (list Z)),
      Forall (fun r => List.length r = c /\ Forall in_range r) rows ->
      rows <> [] ->
      exact_count (List.length rows) ->
      exists ms,
        np_mean_axis0 (Arr2 c rows) = MeanVector ms
        /\ List.length ms = c
        /\ forall j, (j < c)%nat ->
             nth j ms Undetermined
             = Double (double_div (double_of_Z (zsum (column_values rows j)))
                                  (double_of_Z (Z.of_nat (List.length rows)))))
  /\ np_mean_axis0 (Arr2 2 [[100; 100]; [0; 0]])
     = MeanVector [Double (double_of_Z 50); Double (double_of_Z 50)]
  /\ (forall (subjects students : list string) (rows : list (list Z)) (w : world),
        subjects <> [] ->
        rows <> [] ->
        Forall (fun r => List.length r = List.length subjects) rows ->
        exists ms,
          np_mean_axis0 (Arr2 (List.length subjects) rows) = MeanVector ms
          /\ List.length ms = List.length subjects
          /\ subject_comparison subjects students (Arr2 (List.length subjects) rows) w
             = Ok tt (shows w (comparison_chart subjects ms)))
  /\ (forall subjects students marks w,
        nrows marks = 0%nat ->
        subject_comparison subjects students marks w
        = Ok tt (shows w [PrintColored "No data available for comparison." YELLOW])).
Proof.
  split; [| split; [vm_compute; reflexivity | split]].
  - intros c rows Hrows Hne Hcount.
    assert (Hwf : Forall (fun r => List.length r = c) rows).
    { eapply Forall_impl; [| exact Hrows]. now intros r [H _]. }
    destruct (np_mean_axis0_columns c rows Hwf) as (ms & Hms & Hlen & Hnth).
    exists ms. split; [exact Hms |]. split; [exact Hlen |].
    intros j Hj. rewrite (Hnth j Hj).
    rewrite np_mean_exact.
    + unfold column_values. now rewrite length_map.
    + unfold column_values. apply Forall_map.
      eapply Forall_impl; [| exact Hrows]. intros r [Hlr Hr].
      rewrite Forall_forall in Hr. apply Hr. apply nth_In. lia.
    + unfold column_values. now rewrite length_map.
  - intros subjects students rows w Hs Hr Hwf.
    destruct (np_mean_axis0_columns _ rows Hwf) as (ms & Hms & Hlen & _).
    exists ms. split; [exact Hms |]. split; [exact Hlen |].
    now apply subject_comparison_draws.
  - intros subjects students marks w Hrows. unfold subject_comparison.
    assert (Hsize : size marks = 0%nat).
    { destruct marks as [xs | c rows]; simpl in *; [exact Hrows |].
      now rewrite Hrows. }
    rewrite Hsize. reflexivity.
Qed.

Lemma subject_averages_are_column_means_witness :
  (exists ms,
      np_mean_axis0 (Arr2 2 [[70; 80]; [100; 100]; [33; 23]]) = MeanVector ms
      /\ List.length ms = 2%nat
      /\ forall j, (j < 2)%nat ->
           nth j ms Undetermined
           = Double (double_div
                       (double_of_Z (zsum (column_values [[70; 80]; [100; 100]; [33; 23]] j)))
                       (double_of_Z (Z.of_nat 3))))
  /\ exists ms,
       np_mean_axis0 (Arr2 2 [[70; 80]; [100; 100]; [33; 23]]) = MeanVector ms
       /\ List.length ms = 2%nat
       /\ subject_comparison ["Maths"; "Science"] ["Ann"; "Bob"; "Cy"]
                             (Arr2 2 [[70; 80]; [100; 100]; [33; 23]])
                             (mkWorld Absent true [] [])
          = Ok tt (shows (mkWorld Absent true [] [])
                         (comparison_chart ["Maths"; "Science"] ms)).
Proof.
  split.
  - apply (proj1 subject_averages_are_column_means 2%nat
             [[70; 80]; [100; 100]; [33; 23]]).
    + repeat (constructor;
              [split; [reflexivity | repeat constructor; unfold in_range; lia] |]).
      constructor.
    + discriminate.
    + unfold exact_count. simpl. lia.
  - apply (proj1 (proj2 (proj2 subject_averages_are_column_means))
             ["Maths"; "Science"] ["Ann"; "Bob"; "Cy"]
             [[70; 80]; [100; 100]; [33; 23]] (mkWorld Absent true [] [])).
    + discriminate.
    + discriminate.
    + repeat constructor.
Defined.

(** The loop of [display_results] over a table prints one line per pair
    of a student and a row. *)
Lemma display_rows (students : list string) (rows : list (list Z)) (w : world) :
  exists units,
    for_each (combine students (map Row rows)) print_result w
    = Ok units (shows w (map result_row (combine students rows))).
Proof.
  revert rows w. induction students as [| student students IH]; intros rows w.
  - exists []. unfold shows; simpl. rewrite app_nil_r. now destruct w.
  - destruct rows as [| r rows].
    + exists []. unfold shows; simpl. rewrite app_nil_r. now destruct w.
    + simpl combine. rewrite for_each_cons.
      change (print_result (student, Row r) w)
        with (Ok tt (shows w [ResultRow student r (np_mean r)])).
      destruct (IH rows (shows w [ResultRow student r (np_mean r)])) as (units & ->).
      exists (tt :: units). rewrite shows_shows. reflexivity.
Qed.

(** C7: [display_results] prints, for each row of the marks table, the
    average [np.mean] of that row, one line per student; for a row of marks
    in range it is the arithmetic mean across the row, that is the double
    quotient of the sum of the row by its length; the mean of
    [80, 90, 70, 60, 100] is 80.0, and that of [70, 70, 63] the double
    nearest to 203/3, which is 4761618356021931 / 2^46; and with an empty
    student list it only prints its no-data message, computing no
    average. *)
Theorem student_averages_are_row_means :
  (forall (subjects students : list string) (c : nat) (rows : list (list Z)) (w : world),
      students <> [] ->
      display_results subjects students (Arr2 c rows) w
      = Ok tt (shows w (results_heading subjects
                        ++ map result_row (combine students rows)))
      /\ (List.length rows = List.length students ->
          List.length (map result_row (combine students rows)) = List.length students))
  /\ (forall (student : string) (r : list Z),
        r <> [] ->
        Forall in_range r ->
        exact_count (List.length r) ->
        result_row (student, r)
        = ResultRow student r
            (Double (double_div (double_of_Z (zsum r))
                                (double_of_Z (Z.of_nat (List.length r))))))
  /\ np_mean [80; 90; 70; 60; 100] = Double (double_of_Z 80)
  /\ np_mean [70; 70; 63] = Double (S754_finite false 4761618356021931 (-46))
  /\ (forall (subjects : list string) (marks : ndarray) (w : world),
        display_results subjects [] marks w
        = Ok tt (shows w [PrintColored "No data available." YELLOW])).
Proof.
  split; [| split; [| split; [vm_compute; reflexivity
                             | split; [vm_compute; reflexivity | reflexivity]]]].
  - intros subjects students c rows w Hne. split.
    + destruct students as [| s students]; [now elim Hne |].
      unfold display_results, print_colored. cbv zeta. simpl iter.
      rewrite !bind_emit.
      unfold bind.
      match goal with
      | |- context [for_each _ print_result ?w0] =>
          destruct (display_rows (s :: students) rows w0) as (units & ->)
      end.
      unfold ret, shows, results_heading. cbn [file storage stdin trace].
      repeat rewrite <- app_assoc. reflexivity.
    + intros Hlen. rewrite length_map, length_combine. lia.
  - intros student r Hne Hr Hcount. unfold result_row; simpl.
    now rewrite np_mean_exact.
Qed.

Lemma student_averages_are_row_means_witness :
  display_results ["Maths"; "Science"] ["Ann"; "Bob"] (Arr2 2 [[70; 80]; [100; 100]])
                  (mkWorld Absent true [] [])
  = Ok tt (shows (mkWorld Absent true [] [])
             (results_heading ["Maths"; "Science"]
              ++ map result_row (combine ["Ann"; "Bob"] [[70; 80]; [100; 100]])))
  /\ (List.length [[70; 80]; [100; 100]] = List.length ["Ann"; "Bob"] ->
      List.length (map result_row (combine ["Ann"; "Bob"] [[70; 80]; [100; 100]]))
      = List.length ["Ann"; "Bob"])
  /\ result_row ("Cy", [70; 70; 63])
     = ResultRow "Cy" [70; 70; 63]
         (Double (double_div (double_of_Z (zsum [70; 70; 63]))
                             (double_of_Z (Z.of_nat (List.length [70; 70; 63]))))).
Proof.
  split; [| split].
  - apply (proj1 student_averages_are_row_means ["Maths"; "Science"] ["Ann"; "Bob"]
             2%nat [[70; 80]; [100; 100]] (mkWorld Absent true [] [])).
    discriminate.
  - apply (proj1 student_averages_are_row_means ["Maths"; "Science"] ["Ann"; "Bob"]
             2%nat [[70; 80]; [100; 100]] (mkWorld Absent true [] [])).
    discriminate.
  - apply (proj1 (proj2 student_averages_are_row_means) "Cy" [70; 70; 63]).
    + discriminate.
    + repeat constructor; unfold in_range; lia.
    + unfold exact_count. simpl. lia.
Defined.

(** C9: with fewer than two students, [analyze_trend] prints that
    there is not enough data and returns; whatever the marks table holds, no
    call reaches the chart renderer. *)
Theorem analyze_trend_needs_two_students
    (subjects students : list string) (marks : ndarray) (w : world) :
  (List.length students < 2)%nat ->
  analyze_trend subjects students marks w
  = Ok tt (shows w [PrintColored "Not enough data to analyze trends." YELLOW])
  /\ forall w',
       analyze_trend subjects students marks w = Ok tt w' ->
       forall call, In (Plt call) (trace w') -> In (Plt call) (trace w).
Proof.
  intros Hlen. unfold analyze_trend.
  destruct (Nat.ltb (List.length students) 2) eqn:E;
    [| apply Nat.ltb_ge in E; lia].
  split; [reflexivity |].
  intros w' Hrun call Hin. unfold print_colored in Hrun. rewrite emit_shows in Hrun.
  injection Hrun as <-. unfold shows in Hin; simpl in Hin.
  apply in_app_or in Hin. destruct Hin as [Hin | [Hin | []]]; [exact Hin | discriminate].
Qed.

Lemma analyze_trend_needs_two_students_witness :
  analyze_trend ["Maths"] ["Alice"] (Arr2 1 [[70]]) (mkWorld Absent true [] [])
  = Ok tt (shows (mkWorld Absent true [] [])
             [PrintColored "Not enough data to analyze trends." YELLOW])
  /\ forall w',
       analyze_trend ["Maths"] ["Alice"] (Arr2 1 [[70]]) (mkWorld Absent true [] [])
       = Ok tt w' ->
       forall call, In (Plt call) (trace w') -> In (Plt call) [].
Proof.
  apply (analyze_trend_needs_two_students ["Maths"] ["Alice"] (Arr2 1 [[70]])
           (mkWorld Absent true [] [])).
  simpl. lia.
Defined.

(* ===================================================================== *)
(** ** The menu loop and the shape of the marks table *)
(* ===================================================================== *)

Lemma steady_ret {A} (a : A) : steady (ret a).
Proof. intros w; simpl. auto. Qed.

Lemma steady_raise {A} (e : exn) : steady (@raise A e).
Proof. intros w; simpl. auto. Qed.

Lemma steady_emit (ev : event) : steady (emit ev).
Proof. intros w; simpl. auto. Qed.

Lemma steady_input (prompt : string) : steady (input prompt).
Proof.
  intros w; unfold input. destruct (stdin w) eqn:E; simpl; repeat split; auto.
Qed.

Lemma steady_lift_exn {A} (r : exn + A) : steady (lift_exn r).
Proof. destruct r; [apply steady_raise | apply steady_ret]. Qed.

Lemma steady_bind {A B} (m : M A) (k : A -> M B) :
  steady m -> (forall a, steady (k a)) -> steady (bind m k).
Proof.
  intros Hm Hk w. unfold bind. specialize (Hm w).
  destruct (m w) as [a w1 | e w1 | |]; try exact Hm.
  destruct Hm as (Hf & Hw & Hlen). specialize (Hk a w1).
  destruct (k a w1) as [b w2 | e w2 | |]; try exact Hk;
    destruct Hk as (Hf2 & Hw2 & Hlen2); repeat split; try congruence; lia.
Qed.

Lemma steady_for_each {A B} (xs : list A) (body : A -> M B) :
  (forall x, steady (body x)) -> steady (for_each xs body).
Proof.
  intros Hbody. induction xs as [| x xs IH]; simpl.
  - apply steady_ret.
  - apply steady_bind; [apply Hbody |]. intros b.
    apply steady_bind; [exact IH |]. intros bs. apply steady_ret.
Qed.

Ltac steady :=
  repeat first
    [ apply steady_bind; [| intro]
    | apply steady_for_each; intro
    | apply steady_emit | apply steady_ret | apply steady_raise
    | apply steady_input | apply steady_lift_exn
    | match goal with
      | |- steady (let '(_, _) := ?p in _) => destruct p
      | |- steady (match ?x with _ => _ end) => destruct x
      end ].

Lemma steady_display_results subjects students marks :
  steady (display_results subjects students marks).
Proof. unfold display_results, print_colored, print_result. steady. Qed.

Lemma steady_analyze_trend subjects students marks :
  steady (analyze_trend subjects students marks).
Proof. unfold analyze_trend, print_colored, plt_plot, plt. steady. Qed.

Lemma steady_subject_comparison subjects students marks :
  steady (subject_comparison subjects students marks).
Proof. unfold subject_comparison, print_colored, plt_bar, plt. steady. Qed.

Lemma steady_then_ret {A B} (m : M A) (x y : B) (w w' : world) :
  steady m ->
  bind m (fun _ => ret x) w = Ok y w' ->
  y = x /\ file w' = file w.
Proof.
  intros Hm. unfold bind. specialize (Hm w).
  destruct (m w) as [a w1 | e w1 | |]; try discriminate.
  unfold ret. intros H; injection H as <- <-. split; [reflexivity | apply Hm].
Qed.

Lemma steady_tame {A} (m : M A) : steady m -> tame m.
Proof.
  intros Hm w. specialize (Hm w).
  destruct (m w); try contradiction; apply Hm.
Qed.

Lemma tame_bind {A B} (m : M A) (k : A -> M B) :
  tame m -> (forall a, tame (k a)) -> tame (bind m k).
Proof.
  intros Hm Hk w. unfold bind. specialize (Hm w).
  destruct (m w) as [a w1 | e w1 | |]; try exact Hm.
  specialize (Hk a w1).
  destruct (k a w1) as [b w2 | e w2 | |]; try exact Hk; lia.
Qed.

Lemma tame_try_except {A} (body : M A) (catches : exn -> bool) (handler : exn -> M A) :
  tame body -> (forall e, tame (handler e)) -> tame (try_except body catches handler).
Proof.
  intros Hb Hh w. unfold try_except. specialize (Hb w).
  destruct (body w) as [a w1 | e w1 | |]; try exact Hb.
  destruct (catches e); [| exact Hb].
  specialize (Hh e w1).
  destruct (handler e w1) as [b w2 | e2 w2 | |]; try exact Hh; lia.
Qed.

Lemma tame_lift_model {A} (r : option A) : tame (lift_model r).
Proof. destruct r; intros w; simpl; auto. Qed.

Lemma tame_save_data subjects students marks : tame (save_data subjects students marks).
Proof.
  intros w. unfold save_data, bind, json_dump_file.
  destruct (storage w); simpl; auto.
Qed.

Lemma tame_json_load_file : tame json_load_file.
Proof. intros w. unfold json_load_file. destruct (file w); simpl; auto. Qed.

Lemma tame_getitem (data : json) (k : string) : tame (getitem data k).
Proof.
  intros w. unfold getitem.
  destruct data; simpl; auto. destruct (lookup k members); simpl; auto.
Qed.

Lemma tame_initialize_data : tame initialize_data.
Proof.
  unfold initialize_data. apply tame_try_except.
  - repeat first
      [ apply tame_bind; [| intro]
      | apply tame_json_load_file | apply tame_getitem | apply tame_lift_model
      | apply steady_tame; steady ].
  - intros e. apply tame_bind; [apply steady_tame; steady | intros _].
    cbv zeta. apply tame_bind; [apply tame_save_data | intros _].
    apply steady_tame; steady.
Qed.

(** A loop with an advancing body never lacks fuel when it starts with
    more fuel than there are lines of input. *)
Lemma while_true_total {S A} (body : S -> M (S + A)) :
  (forall s, advancing (body s)) ->
  forall fuel s w,
    (List.length (stdin w) < fuel)%nat ->
    match while_true fuel body s w with
    | Ok _ w' | Raise _ w' => (List.length (stdin w') <= List.length (stdin w))%nat
    | Unmodelled => True
    | OutOfFuel => False
    end.
Proof.
  intros Hbody. induction fuel as [| fuel IH]; intros s w Hfuel; [lia |].
  simpl. unfold bind. specialize (Hbody s w).
  destruct (body s w) as [[s' | a] w1 | e w1 | |]; try exact Hbody.
  assert (Hlt : (List.length (stdin w1) < fuel)%nat) by lia.
  specialize (IH s' w1 Hlt).
  destruct (while_true fuel body s' w1); try exact IH; lia.
Qed.

Lemma rounds_succ {S A} (n : nat) (body : S -> M (S + A)) (s : S) (w : world) :
  rounds (Datatypes.S n) body s w
  = match body s w with
    | Ok (inl s') w1 => rounds n body s' w1
    | Ok (inr a) w1 => Ok (inr a) w1
    | Raise e w1 => Raise e w1
    | Unmodelled => Unmodelled
    | OutOfFuel => OutOfFuel
    end.
Proof.
  simpl. unfold bind. now destruct (body s w) as [[s' | a] w1 | e w1 | |].
Qed.

(** A loop is its first [n] rounds followed by the rest of the loop. *)
Lemma while_true_rounds {S A} (n fuel : nat) (body : S -> M (S + A)) (s : S) (w : world) :
  while_true (n + fuel) body s w
  = bind (rounds n body s)
      (fun r => match r with
                | inl s' => while_true fuel body s'
                | inr a => ret a
                end) w.
Proof.
  revert s w. induction n as [| n IH]; intros s w; [reflexivity |].
  simpl. unfold bind.
  destruct (body s w) as [[s' | a] w1 | e w1 | |]; try reflexivity.
  rewrite IH. reflexivity.
Qed.

Lemma loop_total {S A} (body : S -> M (S + A)) (s : S) :
  (forall s, advancing (body s)) -> tame (loop body s).
Proof.
  intros Hbody w. unfold loop. apply while_true_total; [exact Hbody | lia].
Qed.

(** Reading a line and going on tamely makes a round advancing. *)
Lemma advancing_input {S A} (prompt : string) (k : string -> M (S + A)) :
  (forall line, tame (k line)) -> advancing (bind (input prompt) k).
Proof.
  intros Hk w. unfold bind, input.
  destruct (stdin w) as [| line rest] eqn:E; simpl; [lia |].
  specialize (Hk line (World (file w) (storage w) rest (trace w ++ [Prompt prompt]))).
  simpl in Hk.
  destruct (k line _) as [[s | a] w1 | e w1 | |]; try exact Hk; lia.
Qed.

Lemma advancing_after_emit {S A} (ev : event) (m : M (S + A)) :
  advancing m -> advancing (bind (emit ev) (fun _ => m)).
Proof. intros Hm w. rewrite bind_emit. exact (Hm (shows w [ev])). Qed.

Section MenuLoop.

Variable py_int : string -> option Z.

(** A round of the menu that goes round again has added a record, or has
    left the dataset and the file as they were. *)
Lemma menu_round_step (subjects students students' : list string)
    (marks marks' : ndarray) (w w' : world) :
  menu_round py_int subjects (students, marks) w = Ok (inl (students', marks')) w' ->
  (exists w1,
      file w1 = file w
      /\ add_record py_int subjects students marks w1 = Ok (students', marks') w')
  \/ (students' = students /\ marks' = marks /\ file w' = file w).
Proof.
  unfold menu_round, print_colored, print. rewrite !bind_emit.
  unfold bind at 1. unfold input at 1. cbn [stdin file storage trace shows].
  destruct (stdin w) as [| choice rest]; [discriminate |].
  match goal with
  | |- context [if _ then _ else _] => idtac
  end.
  set (w1 := World _ _ _ _).
  assert (Hw1 : file w1 = file w) by reflexivity.
  clearbody w1.
  destruct (String.eqb choice "1").
  { intros Hrun. left. exists w1. split; [exact Hw1 |].
    unfold bind in Hrun.
    destruct (add_record py_int subjects students marks w1)
      as [[st m] w2 | | |]; try discriminate.
    unfold ret in Hrun. now injection Hrun as <- <- <-. }
  destruct (String.eqb choice "2").
  { intros Hrun. right.
    apply steady_then_ret in Hrun; [| apply steady_display_results].
    destruct Hrun as [Heq Hf]. injection Heq as <- <-. repeat split; congruence. }
  destruct (String.eqb choice "3").
  { intros Hrun. right.
    apply steady_then_ret in Hrun; [| apply steady_analyze_trend].
    destruct Hrun as [Heq Hf]. injection Heq as <- <-. repeat split; congruence. }
  destruct (String.eqb choice "4").
  { intros Hrun. right.
    apply steady_then_ret in Hrun; [| apply steady_subject_comparison].
    destruct Hrun as [Heq Hf]. injection Heq as <- <-. repeat split; congruence. }
  destruct (String.eqb choice "5").
  { intros Hrun. apply steady_then_ret in Hrun; [| apply steady_emit].
    destruct Hrun as [Heq _]. discriminate. }
  intros Hrun. right.
  apply steady_then_ret in Hrun; [| apply steady_emit].
  destruct Hrun as [Heq Hf]. injection Heq as <- <-. repeat split; congruence.
Qed.

Lemma initialize_data_unwritable (w : world) :
  file w = Absent \/ file w = Garbage ->
  writable w = false ->
  exists w', initialize_data w = Raise OSError w'.
Proof.
  intros Hfile Hw. destruct w as [f st inp tr]. unfold writable in Hw. simpl in *.
  destruct st; try discriminate;
    destruct Hfile; subst f;
    unfold initialize_data, try_except, bind, json_load_file; simpl;
    eexists; reflexivity.
Qed.

Lemma table_invariant_wf (subjects students : list string) (marks : ndarray) :
  table_invariant subjects students marks ->
  wf_ndarray marks /\ reloaded marks = marks.
Proof.
  intros [[_ ->] | (Hne & rows & -> & Hlen & Hwf)]; [now split |].
  split; [exact Hwf |].
  destruct rows; [| reflexivity].
  destruct students; [now elim Hne | discriminate].
Qed.

Lemma table_invariant_marks_table (subjects students : list string) (marks : ndarray) :
  table_invariant subjects students marks ->
  exists rows,
    marks_table (List.length subjects) rows marks
    /\ List.length rows = List.length students.
Proof.
  intros [[-> ->] | (Hne & rows & -> & Hlen & Hwf)].
  - exists []. split; [now left | reflexivity].
  - exists rows. split; [right; now split | exact Hlen].
Qed.

(** Adding a record keeps the shape of the marks, as long as there is a
    subject. *)
Lemma add_record_table_invariant (subjects students students' : list string)
    (marks marks' : ndarray) (w w' : world) :
  subjects <> [] ->
  table_invariant subjects students marks ->
  add_record py_int subjects students marks w = Ok (students', marks') w' ->
  table_invariant subjects students' marks'
  /\ file w' = Json (document subjects students' marks').
Proof.
  intros Hsubjects Hinv Hrun.
  apply add_record_ok in Hrun.
  destruct Hrun as (name & used & new_marks & -> & _ & Hlen & _ & _ & Hstack & _ & Hfile).
  split; [| exact Hfile].
  destruct (table_invariant_marks_table _ _ _ Hinv) as (rows & Htable & Hrows).
  rewrite (stack_row_table (List.length subjects) rows marks new_marks Htable Hlen)
    in Hstack.
  2:{ left. destruct subjects; [now elim Hsubjects | discriminate]. }
  injection Hstack as <-. right. split.
  - intros H. apply app_eq_nil in H. destruct H as [_ H]. discriminate.
  - exists (rows ++ [new_marks]). split; [reflexivity |].
    split; [rewrite !length_app; simpl; lia |].
    apply Forall_app. split; [| repeat constructor; exact Hlen].
    destruct Htable as [[_ ->] | [_ Hwf]]; [constructor | exact Hwf].
Qed.

(** Every reachable state satisfies the invariant. *)
Lemma reachable_store_invariant (f : file_state) (d : dataset) :
  reachable py_int f d -> store_invariant f d.
Proof.
  induction 1 as [w w' d Hfile Hinit
                 | f d d' w w' Hreach IH Hfile Hinit
                 | f subjects students students' marks marks' w w' Hreach IH Hfile Hround].
  - destruct (writable w) eqn:Hw.
    + rewrite (initialize_data_defaults w Hfile Hw) in Hinit.
      injection Hinit as <- <-. simpl. repeat split. now left.
    + destruct (initialize_data_unwritable w Hfile Hw) as (w2 & Hraise).
      rewrite Hraise in Hinit. discriminate.
  - destruct d as [[subjects students] marks]. destruct IH as (Hs & Htab & Hf).
    destruct (table_invariant_wf _ _ _ Htab) as [Hwf Hre].
    rewrite (initialize_data_document subjects students marks w Hwf) in Hinit
      by congruence.
    rewrite Hre in Hinit. injection Hinit as <- <-. simpl.
    repeat split; auto. congruence.
  - destruct IH as (Hs & Htab & Hf).
    apply menu_round_step in Hround.
    destruct Hround as [(w1 & Hw1 & Hadd) | (-> & -> & Hfile')].
    + assert (Hne : subjects <> []) by (rewrite Hs; discriminate).
      destruct (add_record_table_invariant _ _ _ _ _ _ _ Hne Htab Hadd) as [Htab' Hf'].
      repeat split; auto.
    + repeat split; auto. congruence.
Qed.

(** The states in which the menu loop of [main] stands after some rounds
    are reachable. *)
Lemma rounds_reachable (n : nat) (f : file_state)
    (subjects students students' : list string) (marks marks' : ndarray) (w w' : world) :
  reachable py_int f (subjects, students, marks) ->
  file w = f ->
  rounds n (menu_round py_int subjects) (students, marks) w
  = Ok (inl (students', marks')) w' ->
  reachable py_int (file w') (subjects, students', marks').
Proof.
  revert f students marks w. induction n as [| n IH]; intros f students marks w Hreach Hf.
  - simpl. unfold ret. intros H; injection H as <- <- <-. now rewrite Hf.
  - rewrite rounds_succ.
    destruct (menu_round py_int subjects (students, marks) w)
      as [[[st m] | u] w1 | e w1 | |] eqn:Hround; try discriminate.
    apply (IH (file w1) st m w1); [| reflexivity].
    now apply (reach_round py_int f subjects students st marks m w w1).
Qed.


Lemma steady_read_mark (subject : string) : steady (read_mark py_int subject).
Proof.
  intros w.
  destruct (read_mark_result py_int subject w)
    as [(v & w' & used & -> & _ & _ & Hused & _ & Hf & Hw)
       | (w' & -> & Hf & Hw & Hin)].
  - repeat split; auto. rewrite Hused, length_app. lia.
  - repeat split; auto. rewrite Hin. simpl. lia.
Qed.

Lemma tame_add_record subjects students marks :
  tame (add_record py_int subjects students marks).
Proof.
  unfold add_record, print_colored, read_marks.
  apply tame_bind; [apply steady_tame; steady | intros _].
  apply tame_bind; [apply steady_tame; steady | intros student_name].
  apply tame_bind;
    [apply steady_tame, steady_for_each; intro; apply steady_read_mark | intros new_marks].
  cbv zeta.
  apply tame_bind; [apply steady_tame; steady | intros marks'].
  apply tame_bind; [apply tame_save_data | intros _].
  apply steady_tame; steady.
Qed.

Lemma advancing_menu_round subjects s : advancing (menu_round py_int subjects s).
Proof.
  destruct s as [students marks]. unfold menu_round, print_colored, print.
  repeat apply advancing_after_emit.
  apply advancing_input. intros choice.
  repeat match goal with
         | |- tame (if ?b then _ else _) => destruct b
         end.
  - apply tame_bind; [apply tame_add_record | intros; apply steady_tame; steady].
  - apply tame_bind;
      [apply steady_tame, steady_display_results | intros; apply steady_tame; steady].
  - apply tame_bind;
      [apply steady_tame, steady_analyze_trend | intros; apply steady_tame; steady].
  - apply tame_bind;
      [apply steady_tame, steady_subject_comparison | intros; apply steady_tame; steady].
  - apply steady_tame; steady.
  - apply steady_tame; steady.
Qed.

(** The script ends on every finite input: the fuel of its loops is
    never used up. *)
Lemma script_total (w : world) : script py_int w <> OutOfFuel.
Proof.
  assert (Hmain : tame (main py_int)).
  { unfold main, print_colored, print.
    apply tame_bind; [apply steady_tame; steady | intros _].
    apply tame_bind; [apply tame_initialize_data | intros [[subjects students] marks]].
    apply tame_bind; [apply steady_tame; steady | intros _].
    apply loop_total. intros s. apply advancing_menu_round. }
  unfold script, try_except. specialize (Hmain w).
  destruct (main py_int w); try discriminate. contradiction.
Qed.

End MenuLoop.



(* ===================================================================== *)
(** ** A session *)
(* ===================================================================== *)

(** The results show one line for Alice with the average 80; after Bob
    the subject averages are 85, 90, 95, 80 and 100; and the file holds both
    records. *)
Example session_run :
  let r := script decimal_int (mkWorld Absent true session []) in
  In (ResultRow "Alice" [70; 80; 90; 60; 100] (Double (double_of_Z 80))) (run_trace r)
  /\ In (Plt (Bar default_subjects
                 (MeanVector (map (fun z => Double (double_of_Z z)) [85; 90; 95; 80; 100]))))
        (run_trace r)
  /\ run_file r
     = Json (document default_subjects ["Alice"; "Bob"]
                      (Arr2 5 [[70; 80; 90; 60; 100]; [100; 100; 100; 100; 100]])).
Proof.
  vm_compute. repeat split; repeat (first [left; reflexivity | right]).
Qed.

(* ===================================================================== *)
(** ** Further properties: loading *)
(* ===================================================================== *)

(** What [initialize_data] does on a file that holds a JSON document
    depends on the document alone. *)
Lemma initialize_data_json (w : world) (doc : json) :
  file w = Json doc ->
  (exists d, initialize_data w = Ok d (shows w [loaded_message]))
  \/ (exists e, initialize_data w = Raise e w
                /\ (e = TypeError \/ exists k, e = KeyError k /\ In k document_keys))
  \/ initialize_data w = Unmodelled.
Proof.
  intros Hfile. destruct w as [f wr inp tr]; simpl in Hfile; subst f.
  unfold initialize_data, try_except, bind, json_load_file; simpl.
  destruct doc as [| b | z | q | s | items | members];
    try (right; left; exists TypeError; split; [reflexivity | now left]).
  unfold getitem. unfold document_keys.
  destruct (lookup "subjects" members) as [subjects |]; simpl;
    [| right; left; eexists; split; [reflexivity | right; eexists; split;
                                                     [reflexivity | simpl; auto]]].
  destruct (lookup "students" members) as [students |]; simpl;
    [| right; left; eexists; split; [reflexivity | right; eexists; split;
                                                     [reflexivity | simpl; auto]]].
  destruct (lookup "marks" members) as [marks |]; simpl;
    [| right; left; eexists; split; [reflexivity | right; eexists; split;
                                                     [reflexivity | simpl; auto]]].
  destruct (np_array marks) as [a |]; simpl; [| now right; right].
  destruct (as_str_list subjects) as [ss |]; simpl; [| now right; right].
  destruct (as_str_list students) as [st |]; simpl; [| now right; right].
  left. eexists. reflexivity.
Qed.

Lemma initialize_data_json_value (w w2 : world) (doc : json) (d : dataset) (w' : world) :
  file w = Json doc ->
  file w2 = Json doc ->
  initialize_data w = Ok d w' ->
  initialize_data w2 = Ok d (shows w2 [loaded_message]).
Proof.
  intros Hfile Hfile2. destruct w as [f wr inp tr], w2 as [f2 wr2 inp2 tr2].
  simpl in Hfile, Hfile2; subst f f2.
  unfold initialize_data, try_except, bind, json_load_file; simpl.
  destruct doc as [| b | z | q | s | items | members]; try discriminate.
  unfold getitem.
  destruct (lookup "subjects" members) as [subjects |]; simpl; [| discriminate].
  destruct (lookup "students" members) as [students |]; simpl; [| discriminate].
  destruct (lookup "marks" members) as [marks |]; simpl; [| discriminate].
  destruct (np_array marks) as [a |]; simpl; [| discriminate].
  destruct (as_str_list subjects) as [ss |]; simpl; [| discriminate].
  destruct (as_str_list students) as [st |]; simpl; [| discriminate].
  intros H. injection H as <- _. reflexivity.
Qed.

(** A document that is not an object makes the first subscript fail, and
    an object that lacks a key the subscript of the first key it lacks. *)
Lemma initialize_data_bad_document (w : world) (doc : json) :
  file w = Json doc ->
  ((forall members, doc <> JObj members) -> initialize_data w = Raise TypeError w)
  /\ (forall members k,
        doc = JObj members ->
        missing_key members = Some k ->
        initialize_data w = Raise (KeyError k) w).
Proof.
  intros Hfile. destruct w as [f st inp tr]; simpl in Hfile; subst f. split.
  - intros Hnot. destruct doc; try (now elim (Hnot members)); reflexivity.
  - intros members k -> Hk.
    unfold initialize_data, try_except, bind, json_load_file, getitem; simpl.
    unfold missing_key, document_keys in Hk. simpl in Hk.
    destruct (lookup "subjects" members) as [subjects |]; simpl;
      [| now injection Hk as <-].
    destruct (lookup "students" members) as [students |]; simpl;
      [| now injection Hk as <-].
    destruct (lookup "marks" members) as [marks |]; simpl;
      [discriminate | now injection Hk as <-].
Qed.

(** X1: what [initialize_data] does with a file that holds a JSON
    document.  A document that is not an object makes it raise [TypeError],
    and an object that lacks one of the three keys [KeyError] for the first
    one it lacks, in both cases with the file, the storage, the input and
    the output as they were; and when it returns a dataset it has only
    printed that the data was loaded: nothing was written, no input read. *)
Theorem initialize_data_keeps_json_file (w : world) (doc : json) :
  file w = Json doc ->
  ((forall members, doc <> JObj members) -> initialize_data w = Raise TypeError w)
  /\ (forall members k,
        doc = JObj members ->
        missing_key members = Some k ->
        initialize_data w = Raise (KeyError k) w)
  /\ (forall d w', initialize_data w = Ok d w' -> w' = shows w [loaded_message]).
Proof.
  intros Hfile.
  destruct (initialize_data_bad_document w doc Hfile) as [Htype Hkey].
  split; [exact Htype | split; [exact Hkey |]].
  intros d w' H.
  destruct (initialize_data_json w doc Hfile) as [(d' & Hok) | [(e & Hraise & _) | Hun]];
    rewrite ?Hraise, ?Hun in H; try discriminate.
  rewrite Hok in H. now injection H as _ <-.
Qed.

Lemma initialize_data_keeps_json_file_witness :
  ((forall members, JObj [("subjects", JList [])] <> JObj members) ->
   initialize_data (mkWorld (Json (JObj [("subjects", JList [])])) false ["1"] [])
   = Raise TypeError (mkWorld (Json (JObj [("subjects", JList [])])) false ["1"] []))
  /\ (forall members k,
        JObj [("subjects", JList [])] = JObj members ->
        missing_key members = Some k ->
        initialize_data (mkWorld (Json (JObj [("subjects", JList [])])) false ["1"] [])
        = Raise (KeyError k)
                (mkWorld (Json (JObj [("subjects", JList [])])) false ["1"] []))
  /\ (forall d w',
        initialize_data (mkWorld (Json (JObj [("subjects", JList [])])) false ["1"] [])
        = Ok d w' ->
        w' = shows (mkWorld (Json (JObj [("subjects", JList [])])) false ["1"] [])
                   [loaded_message]).
Proof.
  apply (initialize_data_keeps_json_file
           (mkWorld (Json (JObj [("subjects", JList [])])) false ["1"] [])
           (JObj [("subjects", JList [])])).
  reflexivity.
Defined.

(** X2: loading is stable: once [initialize_data] has returned a dataset,
    loading again from the file it left returns the same dataset and leaves
    the file as it is. *)
Theorem initialize_data_twice (w w' w2 : world) (d : dataset) :
  initialize_data w = Ok d w' ->
  file w2 = file w' ->
  initialize_data w2 = Ok d (shows w2 [loaded_message]).
Proof.
  intros Hrun Hfile.
  destruct (file w) as [| | | | | doc] eqn:Hf.
  - destruct (writable w) eqn:Hw.
    + rewrite (initialize_data_defaults w (or_introl Hf) Hw) in Hrun.
      injection Hrun as <- <-.
      now apply (initialize_data_document default_subjects [] (Arr1 []) w2 I).
    + destruct (initialize_data_unwritable w (or_introl Hf) Hw) as (w3 & H).
      rewrite H in Hrun. discriminate.
  - destruct w as [f st inp tr]; simpl in Hf; subst f. discriminate.
  - destruct w as [f st inp tr]; simpl in Hf; subst f. discriminate.
  - destruct (writable w) eqn:Hw.
    + rewrite (initialize_data_defaults w (or_intror Hf) Hw) in Hrun.
      injection Hrun as <- <-.
      now apply (initialize_data_document default_subjects [] (Arr1 []) w2 I).
    + destruct (initialize_data_unwritable w (or_intror Hf) Hw) as (w3 & H).
      rewrite H in Hrun. discriminate.
  - destruct w as [f st inp tr]; simpl in Hf; subst f. discriminate.
  - destruct (initialize_data_json w doc Hf) as [(d' & Hok) | [(e & Hraise & _) | Hun]];
      rewrite ?Hraise, ?Hun in Hrun; try discriminate.
    assert (Hw' : w' = shows w [loaded_message]).
    { rewrite Hok in Hrun. now injection Hrun as _ <-. }
    subst w'. simpl in Hfile. rewrite Hf in Hfile.
    exact (initialize_data_json_value w w2 doc d _ Hf Hfile Hrun).
Qed.

Lemma initialize_data_twice_witness :
  initialize_data (fallback_world (mkWorld Garbage true ["5"] []))
  = Ok (default_subjects, [], Arr1 [])
       (shows (fallback_world (mkWorld Garbage true ["5"] [])) [loaded_message]).
Proof.
  apply (initialize_data_twice (mkWorld Garbage true ["5"] [])
           (fallback_world (mkWorld Garbage true ["5"] []))
           (fallback_world (mkWorld Garbage true ["5"] []))
           (default_subjects, [], Arr1 [])); reflexivity.
Defined.

(* ===================================================================== *)
(** ** Further properties: adding a record *)
(* ===================================================================== *)

Lemma stack_row_error (marks : ndarray) (new_marks : list Z) (e : exn) :
  stack_row marks new_marks = inl e ->
  e = ValueError /\ size marks <> 0%nat.
Proof.
  unfold stack_row. destruct (Nat.eqb (size marks) 0) eqn:E; simpl; [discriminate |].
  apply Nat.eqb_neq in E. intros H. split; [| exact E].
  destruct marks as [xs | c rows]; simpl in H;
    destruct (Nat.eqb _ _); try discriminate; now injection H.
Qed.

Section AddRecord.

Variable py_int : string -> option Z.

Lemma add_record_outcome
    (subjects students : list string) (marks : ndarray) (w : world) :
  match add_record py_int subjects students marks w with
  | Ok _ w' => storage w = Accepts /\ storage w' = storage w
  | Raise e w' =>
      storage w' = storage w
      /\ ((e = EOFError /\ stdin w' = [] /\ file w' = file w)
          \/ (e = ValueError /\ size marks <> 0%nat /\ file w' = file w)
          \/ (e = OSError /\ storage w = RefusesOpen /\ file w' = file w)
          \/ (e = OSError /\ storage w = FailsWrite /\ file w' = Garbage))
  | Unmodelled | OutOfFuel => False
  end.
Proof.
  destruct w as [f st inp tr]. rewrite add_record_unfold. cbv zeta.
  destruct inp as [| student_name rest]; [simpl; auto |].
  match goal with
  | |- context [read_marks py_int subjects ?w1] =>
      destruct (read_marks_result py_int subjects w1)
        as [(vs & w2 & used & Hrun & _ & _ & _ & _ & Hf & Hw)
           | (w2 & Hrun & Hf & Hw & Hin)]; rewrite Hrun
  end.
  - destruct (stack_row marks vs) as [e | m'] eqn:Hstack.
    + apply stack_row_error in Hstack. simpl in *. split; [exact Hw |]. right. left.
      destruct Hstack. auto.
    + simpl in Hw, Hf. rewrite Hw. destruct st; simpl in *.
      * now split.
      * split; [exact Hw |]. right. right. left. auto.
      * split; [reflexivity |]. right. right. right. auto.
  - simpl in *. split; [exact Hw |]. left. auto.
Qed.

(** X3: what a failed [add_record] leaves behind.  It returns only on a
    storage that accepts the save.  When it raises, the storage is as
    before; unless the exception is the [OSError] of the save the file is as
    before, and [EOFError] comes with the input used up; after the
    [OSError] of the save the file is as before when the storage refused to
    open it, and holds no JSON text when the write failed after the file was
    opened. *)
Theorem add_record_fails_cleanly
    (subjects students : list string) (marks : ndarray) (w : world) :
  (forall r w',
      add_record py_int subjects students marks w = Ok r w' ->
      writable w = true)
  /\ (forall e w',
        add_record py_int subjects students marks w = Raise e w' ->
        storage w' = storage w
        /\ (e <> OSError -> file w' = file w)
        /\ (e = EOFError -> stdin w' = [])
        /\ (e = OSError ->
            (storage w = RefusesOpen /\ file w' = file w)
            \/ (storage w = FailsWrite /\ file w' = Garbage))).
Proof.
  pose proof (add_record_outcome subjects students marks w) as H.
  split.
  - intros r w' Hrun. rewrite Hrun in H. unfold writable. now rewrite (proj1 H).
  - intros e w' Hrun. rewrite Hrun in H. destruct H as [Hst H].
    split; [exact Hst |].
    destruct H as [(-> & Hin & Hf) | [(-> & _ & Hf) | [(-> & Hs & Hf) | (-> & Hs & Hf)]]].
    + repeat split; auto; discriminate.
    + repeat split; auto; discriminate.
    + split; [now intros [] |]. split; [discriminate | auto].
    + split; [now intros [] |]. split; [discriminate | auto].
Qed.


(** X5: with at least one subject, [add_record] keeps the shape of the
    marks: from the empty array without students, or a table with one row
    per student and one column per subject, it returns such a table, with
    one student and one row more. *)
Theorem add_record_keeps_table_shape
    (subjects students students' : list string) (marks marks' : ndarray)
    (w w' : world) :
  subjects <> [] ->
  table_invariant subjects students marks ->
  add_record py_int subjects students marks w = Ok (students', marks') w' ->
  table_invariant subjects students' marks'
  /\ List.length students' = S (List.length students)
  /\ nrows marks' = S (nrows marks)
  /\ nrows marks' = List.length students'.
Proof.
  intros Hne Hinv Hrun.
  destruct (add_record_table_invariant py_int _ _ _ _ _ _ _ Hne Hinv Hrun) as [Hinv' _].
  apply add_record_ok in Hrun.
  destruct Hrun as (name & used & new_marks & -> & _).
  assert (Hlen : List.length (students ++ [name]) = S (List.length students))
    by (rewrite length_app; simpl; lia).
  assert (Hrows' : nrows marks' = List.length (students ++ [name])).
  { destruct Hinv' as [[H _] | (_ & rows & -> & Hr & _)]; [| exact Hr].
    apply app_eq_nil in H. destruct H as [_ H]. discriminate. }
  assert (Hrows : nrows marks = List.length students).
  { destruct Hinv as [[-> ->] | (_ & rows & -> & Hr & _)]; [reflexivity | exact Hr]. }
  repeat split; auto; congruence.
Qed.

(** X6: a row that does not fit is refused after it was entered: on a
    table that has elements and whose column count is not the number of
    subjects, [add_record] reads the name and the valid entries, then raises
    [ValueError]; the file is as before and the entries are gone from the
    input. *)
Theorem add_record_column_mismatch
    (subjects students lines : list string) (values : list Z)
    (c : nat) (rows : list (list Z)) (student_name : string)
    (f : file_state) (st : storage_state) (rest : list string) (tr : list event) :
  rows <> [] ->
  c <> 0%nat ->
  c <> List.length subjects ->
  Forall2 (valid_entry py_int) lines values ->
  List.length values = List.length subjects ->
  exists tr',
    add_record py_int subjects students (Arr2 c rows)
               (World f st (student_name :: lines ++ rest) tr)
    = Raise ValueError (World f st rest tr').
Proof.
  intros Hrows Hc Hmis Hvalid Hlen. rewrite add_record_unfold. cbv zeta.
  rewrite (read_marks_valid py_int subjects lines values f _ rest _ Hvalid Hlen).
  assert (Hstack : stack_row (Arr2 c rows) values = inl ValueError).
  { unfold stack_row; simpl.
    destruct (Nat.eqb (List.length rows * c) 0) eqn:E.
    - apply Nat.eqb_eq in E. destruct rows; [now elim Hrows | simpl in E; lia].
    - simpl. destruct (Nat.eqb c (List.length values)) eqn:E2; [| reflexivity].
      apply Nat.eqb_eq in E2. congruence. }
  rewrite Hstack. eexists. reflexivity.
Qed.

(** X7: a failed save surfaces through [add_record]: on a storage that
    does not accept the write, [add_record] reads the name and the valid
    entries, then raises [OSError], and the record is lost; the file is as
    before when the storage refused to open it, and holds no JSON text when
    the write failed after the file was opened. *)
Theorem add_record_write_failure
    (subjects students lines : list string) (values : list Z)
    (marks marks' : ndarray) (student_name : string)
    (f : file_state) (st : storage_state) (rest : list string) (tr : list event) :
  Forall2 (valid_entry py_int) lines values ->
  List.length values = List.length subjects ->
  stack_row marks values = inr marks' ->
  st <> Accepts ->
  exists tr',
    add_record py_int subjects students marks
               (World f st (student_name :: lines ++ rest) tr)
    = Raise OSError
        (World (match st with FailsWrite => Garbage | _ => f end) st rest tr').
Proof.
  intros Hvalid Hlen Hstack Hst. rewrite add_record_unfold. cbv zeta.
  rewrite (read_marks_valid py_int subjects lines values f st rest _ Hvalid Hlen).
  rewrite Hstack. simpl. destruct st; [now elim Hst | |]; eexists; reflexivity.
Qed.

End AddRecord.

(* ===================================================================== *)
(** ** Further properties: the displays *)
(* ===================================================================== *)

Lemma read_only_ret {A} (a : A) : read_only (ret a).
Proof. intros w; simpl. auto. Qed.

Lemma read_only_raise {A} (e : exn) : read_only (@raise A e).
Proof. intros w; simpl. auto. Qed.

Lemma read_only_emit (ev : event) : read_only (emit ev).
Proof. intros w; simpl. auto. Qed.

Lemma read_only_lift_exn {A} (r : exn + A) : read_only (lift_exn r).
Proof. destruct r; [apply read_only_raise | apply read_only_ret]. Qed.

Lemma read_only_bind {A B} (m : M A) (k : A -> M B) :
  read_only m -> (forall a, read_only (k a)) -> read_only (bind m k).
Proof.
  intros Hm Hk w. unfold bind. specialize (Hm w).
  destruct (m w) as [a w1 | e w1 | |]; try exact Hm.
  destruct Hm as (Hf & Hw & Hin). specialize (Hk a w1).
  destruct (k a w1) as [b w2 | e w2 | |]; try exact Hk;
    destruct Hk as (Hf2 & Hw2 & Hin2); repeat split; congruence.
Qed.

Lemma read_only_for_each {A B} (xs : list A) (body : A -> M B) :
  (forall x, read_only (body x)) -> read_only (for_each xs body).
Proof.
  intros Hbody. induction xs as [| x xs IH]; simpl.
  - apply read_only_ret.
  - apply read_only_bind; [apply Hbody |]. intros b.
    apply read_only_bind; [exact IH |]. intros bs. apply read_only_ret.
Qed.

Ltac read_only :=
  repeat first
    [ apply read_only_bind; [| intro]
    | apply read_only_for_each; intro
    | apply read_only_emit | apply read_only_ret | apply read_only_raise
    | apply read_only_lift_exn
    | match goal with
      | |- read_only (let '(_, _) := ?p in _) => destruct p
      | |- read_only (match ?x with _ => _ end) => destruct x
      end ].

Lemma read_only_display_results subjects students marks :
  read_only (display_results subjects students marks).
Proof. unfold display_results, print_colored, print_result. read_only. Qed.

Lemma read_only_analyze_trend subjects students marks :
  read_only (analyze_trend subjects students marks).
Proof. unfold analyze_trend, print_colored, plt_plot, plt. read_only. Qed.

Lemma read_only_subject_comparison subjects students marks :
  read_only (subject_comparison subjects students marks).
Proof. unfold subject_comparison, print_colored, plt_bar, plt. read_only. Qed.

(** X8: the three displays only show things: whether they return or
    raise, [display_results], [analyze_trend] and [subject_comparison] leave
    the file and the storage as they were and read no input. *)
Theorem displays_are_read_only
    (subjects students : list string) (marks : ndarray) :
  read_only (display_results subjects students marks)
  /\ read_only (analyze_trend subjects students marks)
  /\ read_only (subject_comparison subjects students marks).
Proof.
  split; [| split].
  - apply read_only_display_results.
  - apply read_only_analyze_trend.
  - apply read_only_subject_comparison.
Qed.

(** A loop whose bodies each show one event shows them all. *)
Lemma for_each_shows {A} (xs : list A) (body : A -> M unit) (ev : A -> event) (w : world) :
  (forall x w0, In x xs -> body x w0 = Ok tt (shows w0 [ev x])) ->
  exists units, for_each xs body w = Ok units (shows w (map ev xs)).
Proof.
  revert w. induction xs as [| x xs IH]; intros w Hbody.
  - exists []. unfold shows; simpl. rewrite app_nil_r. now destruct w.
  - rewrite for_each_cons, (Hbody x w (or_introl eq_refl)).
    destruct (IH (shows w [ev x])) as (units & ->).
    { intros y w0 Hy. apply Hbody. now right. }
    exists (tt :: units). now rewrite shows_shows.
Qed.

Lemma enumerate_index {A} (xs : list A) (j : nat) (x : A) :
  In (j, x) (enumerate xs) -> (j < List.length xs)%nat.
Proof.
  unfold enumerate. intros Hin. apply in_combine_l in Hin.
  apply in_seq in Hin. lia.
Qed.

(** [plt.plot] draws when the two series are equally long. *)
Lemma plt_plot_draws (xs : list nat) (ys : list Z) (label : string) (w : world) :
  List.length xs = List.length ys ->
  plt_plot xs ys label w = Ok tt (shows w [Plt (Plot xs ys label)]).
Proof.
  intros Hlen. unfold plt_plot. apply Nat.eqb_eq in Hlen. now rewrite Hlen.
Qed.

(** X9: with two students or more and a table that has one row per
    student and one column per subject, [analyze_trend] returns after it has
    drawn, for every subject in order, the line of that subject's column
    over the student indices, one point per student. *)
Theorem analyze_trend_plots_columns
    (subjects students : list string) (rows : list (list Z)) (w : world) :
  (2 <= List.length students)%nat ->
  wf_ndarray (Arr2 (List.length subjects) rows) ->
  List.length rows = List.length students ->
  analyze_trend subjects students (Arr2 (List.length subjects) rows) w
  = Ok tt (shows w (trend_chart subjects students rows))
  /\ forall j, List.length (column_values rows j)
               = List.length (seq 0 (List.length students)).
Proof.
  intros Hlen _ Hrows.
  split; [| intros j; unfold column_values; now rewrite length_map, length_seq].
  unfold analyze_trend.
  destruct (Nat.ltb (List.length students) 2) eqn:E;
    [apply Nat.ltb_lt in E; lia |].
  unfold plt. rewrite bind_emit. cbv zeta. unfold bind at 1.
  match goal with
  | |- context [for_each (enumerate subjects) ?body ?w0] =>
      destruct (for_each_shows (enumerate subjects) body
                  (fun entry : nat * string =>
                     Plt (Plot (seq 0 (List.length students))
                               (column_values rows (fst entry)) (snd entry))) w0)
        as (units & ->)
  end.
  - intros [j subject] w0 Hin. apply enumerate_index in Hin.
    unfold bind, column. cbn [size fst snd].
    pose proof Hin as Hlt. apply Nat.ltb_lt in Hin. rewrite Hin.
    destruct (Nat.eqb (List.length rows * List.length subjects) 0) eqn:Hsize.
    { apply Nat.eqb_eq in Hsize. nia. }
    simpl. apply plt_plot_draws.
    unfold column_values. rewrite length_map, length_seq. now symmetry.
  - rewrite !bind_emit. unfold emit, shows, trend_chart. cbn [file storage stdin trace].
    repeat rewrite <- app_assoc. reflexivity.
Qed.

Lemma for_each_raises {A} (pre post : list A) (y : A) (body : A -> M unit)
    (ev : A -> event) (e : exn) (w : world) :
  (forall x w0, In x pre -> body x w0 = Ok tt (shows w0 [ev x])) ->
  (forall w0, body y w0 = Raise e w0) ->
  for_each (pre ++ y :: post) body w = Raise e (shows w (map ev pre)).
Proof.
  revert w. induction pre as [| x pre IH]; intros w Hpre Hy.
  - simpl app. rewrite for_each_cons, Hy. unfold shows; simpl.
    rewrite app_nil_r. now destruct w.
  - simpl app. rewrite for_each_cons, (Hpre x w (or_introl eq_refl)).
    rewrite IH; [| intros z w0 Hz; apply Hpre; now right | exact Hy].
    now rewrite shows_shows.
Qed.

Lemma enumerate_split {A} (xs : list A) (k c : nat) :
  (k <= c)%nat ->
  (c < k + List.length xs)%nat ->
  exists pre post x,
    combine (seq k (List.length xs)) xs = pre ++ (c, x) :: post
    /\ forall entry, In entry pre -> (fst entry < c)%nat.
Proof.
  revert k. induction xs as [| x xs IH]; intros k Hk Hc; simpl in *; [lia |].
  destruct (Nat.eq_dec k c) as [-> | Hne].
  - exists [], (combine (seq (S c) (List.length xs)) xs), x. split; [reflexivity |].
    intros entry [].
  - destruct (IH (S k)) as (pre & post & y & Heq & Hpre); [lia | lia |].
    exists ((k, x) :: pre), post, y. split; [simpl; now rewrite Heq |].
    intros entry [<- | Hin]; [simpl; lia | now apply Hpre].
Qed.

(** X10: with two students or more, a table with one row per student
    and at least one column, but fewer columns than there are subjects,
    makes [analyze_trend] raise [IndexError] at the first subject without a
    column, and a one-dimensional array of marks at the first subject; the
    lines drawn so far are never shown. *)
Theorem analyze_trend_missing_column
    (subjects students : list string) (marks : ndarray) (w : world) :
  (2 <= List.length students)%nat ->
  wf_ndarray marks ->
  size marks <> 0%nat ->
  (match marks with
   | Arr1 _ => subjects <> []
   | Arr2 c rows =>
       (c < List.length subjects)%nat /\ List.length rows = List.length students
   end) ->
  exists shown,
    analyze_trend subjects students marks w = Raise IndexError (shows w shown)
    /\ ~ In (Plt ShowChart) shown.
Proof.
  intros Hlen _ Hsize Hcols. unfold analyze_trend.
  destruct (Nat.ltb (List.length students) 2) eqn:E;
    [apply Nat.ltb_lt in E; lia |].
  apply Nat.eqb_neq in Hsize.
  unfold plt. rewrite bind_emit. cbv zeta. unfold bind at 1. rewrite Hsize. simpl negb.
  assert (Hsplit : exists pre post c s,
             enumerate subjects = pre ++ (c, s) :: post
             /\ column marks c = inl IndexError
             /\ forall entry, In entry pre ->
                  exists ys, column marks (fst entry) = inr ys
                             /\ List.length ys = List.length students).
  { destruct marks as [xs | c rows].
    - destruct subjects as [| s ss]; [now elim Hcols |].
      exists [], (combine (seq 1 (List.length ss)) ss), 0%nat, s.
      split; [reflexivity |]. split; [reflexivity |]. intros entry [].
    - destruct Hcols as [Hcols Hrows].
      destruct (enumerate_split subjects 0 c) as (pre & post & s & Heq & Hpre);
        [lia | simpl; lia |].
      exists pre, post, c, s. split; [exact Heq |]. split.
      + simpl. now rewrite Nat.ltb_irrefl.
      + intros entry Hin. specialize (Hpre entry Hin). simpl.
        apply Nat.ltb_lt in Hpre. rewrite Hpre. eexists. split; [reflexivity |].
        unfold column_values. now rewrite length_map. }
  destruct Hsplit as (pre & post & c & s & Heq & Hbad & Hgood). rewrite Heq.
  set (ev := fun entry : nat * string =>
               match column marks (fst entry) with
               | inr ys => Plt (Plot (seq 0 (List.length students)) ys (snd entry))
               | inl _ => Plt Figure
               end).
  rewrite (for_each_raises pre post (c, s) _ ev IndexError).
  - exists ([Plt Figure] ++ map ev pre). rewrite shows_shows. split; [reflexivity |].
    intros Hin. apply in_app_or in Hin. destruct Hin as [[H | []] | Hin]; [discriminate |].
    apply in_map_iff in Hin. destruct Hin as (entry & Hev & _).
    unfold ev in Hev. destruct (column marks (fst entry)); discriminate.
  - intros [j subject] w0 Hin. destruct (Hgood _ Hin) as (ys & Hys & Hlys).
    unfold bind, ev. simpl fst in *. simpl snd. rewrite Hys. simpl.
    apply plt_plot_draws. now rewrite length_seq.
  - intros w0. unfold bind. rewrite Hbad. reflexivity.
Qed.

(* ===================================================================== *)
(** ** Further properties: the menu and the session *)
(* ===================================================================== *)

Lemma while_true_succ {S A} (fuel : nat) (body : S -> M (S + A)) (s : S) (w : world) :
  while_true (Datatypes.S fuel) body s w
  = match body s w with
    | Ok (inl s') w1 => while_true fuel body s' w1
    | Ok (inr a) w1 => Ok a w1
    | Raise e w1 => Raise e w1
    | Unmodelled => Unmodelled
    | OutOfFuel => OutOfFuel
    end.
Proof.
  simpl. unfold bind. now destruct (body s w) as [[s' | a] w1 | e w1 | |].
Qed.

(** A read-only call followed by [ret x]. *)
Lemma read_only_then_ret {A B} (m : M A) (x : B) (w : world) :
  read_only m ->
  match bind m (fun _ => ret x) w with
  | Ok r w' =>
      r = x /\ file w' = file w /\ storage w' = storage w /\ stdin w' = stdin w
  | Raise _ w' =>
      file w' = file w /\ storage w' = storage w /\ stdin w' = stdin w
  | Unmodelled | OutOfFuel => False
  end.
Proof.
  intros Hm. unfold bind. specialize (Hm w).
  destruct (m w) as [a w1 | e w1 | |]; try exact Hm. simpl. now split.
Qed.

Section Session.

Variable py_int : string -> option Z.

(** The world in which the choice of a menu round is carried out. *)
Lemma menu_round_unfold (subjects students : list string) (marks : ndarray)
    f st (choice : string) (rest : list string) tr :
  exists tr1,
    menu_round py_int subjects (students, marks) (World f st (choice :: rest) tr)
    = (if String.eqb choice "1" then
         bind (add_record py_int subjects students marks) (fun s' => ret (inl s'))
       else if String.eqb choice "2" then
         bind (display_results subjects students marks)
              (fun _ => ret (inl (students, marks)))
       else if String.eqb choice "3" then
         bind (analyze_trend subjects students marks)
              (fun _ => ret (inl (students, marks)))
       else if String.eqb choice "4" then
         bind (subject_comparison subjects students marks)
              (fun _ => ret (inl (students, marks)))
       else if String.eqb choice "5" then
         bind (emit goodbye) (fun _ => ret (inr tt))
       else
         bind (print_colored "Invalid choice. Please try again." RED)
              (fun _ => ret (inl (students, marks))))
        (World f st rest tr1).
Proof.
  unfold menu_round, print_colored, print. rewrite !bind_emit.
  unfold bind at 1. unfold input at 1. cbn [stdin file storage trace shows].
  eexists. reflexivity.
Qed.

(** X12: only choice 1 changes anything: a menu round with any other
    choice reads that one line and leaves the file and the storage as they
    were; if it returns, the loop goes on with the same students and marks,
    or ends when the choice is 5. *)
Theorem menu_round_other_choices
    (subjects students : list string) (marks : ndarray)
    (w : world) (choice : string) (rest : list string) :
  stdin w = choice :: rest ->
  choice <> "1" ->
  match menu_round py_int subjects (students, marks) w with
  | Ok r w' =>
      file w' = file w /\ storage w' = storage w /\ stdin w' = rest
      /\ r = (if String.eqb choice "5" then inr tt else inl (students, marks))
  | Raise _ w' => file w' = file w /\ storage w' = storage w /\ stdin w' = rest
  | Unmodelled | OutOfFuel => False
  end.
Proof.
  intros Hin Hchoice. destruct w as [f st inp tr]; simpl in Hin; subst inp.
  destruct (menu_round_unfold subjects students marks f st choice rest tr) as (tr1 & ->).
  destruct (String.eqb choice "1") eqn:E1; [apply String.eqb_eq in E1; contradiction |].
  destruct (String.eqb choice "2") eqn:E2.
  { apply String.eqb_eq in E2; subst choice.
    pose proof (read_only_then_ret _ (@inl _ unit (students, marks))
                  (World f st rest tr1)
                  (read_only_display_results subjects students marks)) as H.
    destruct (bind _ _ _); try exact H; simpl in *; tauto. }
  destruct (String.eqb choice "3") eqn:E3.
  { apply String.eqb_eq in E3; subst choice.
    pose proof (read_only_then_ret _ (@inl _ unit (students, marks))
                  (World f st rest tr1)
                  (read_only_analyze_trend subjects students marks)) as H.
    destruct (bind _ _ _); try exact H; simpl in *; tauto. }
  destruct (String.eqb choice "4") eqn:E4.
  { apply String.eqb_eq in E4; subst choice.
    pose proof (read_only_then_ret _ (@inl _ unit (students, marks))
                  (World f st rest tr1)
                  (read_only_subject_comparison subjects students marks)) as H.
    destruct (bind _ _ _); try exact H; simpl in *; tauto. }
  destruct (String.eqb choice "5") eqn:E5; simpl; auto.
Qed.

(** Every way a menu round can end. *)
Lemma menu_round_outcome (subjects students : list string) (marks : ndarray) (w : world) :
  match menu_round py_int subjects (students, marks) w with
  | Ok (inl (students', marks')) w' =>
      storage w' = storage w
      /\ ((exists w1,
              file w1 = file w
              /\ add_record py_int subjects students marks w1 = Ok (students', marks') w')
          \/ (students' = students /\ marks' = marks /\ file w' = file w))
  | Ok (inr _) w' =>
      storage w' = storage w /\ file w' = file w /\ exists tr, trace w' = tr ++ [goodbye]
  | Raise _ w' =>
      storage w' = storage w
      /\ (file w' = file w \/ (storage w = FailsWrite /\ file w' = Garbage))
  | Unmodelled | OutOfFuel => False
  end.
Proof.
  destruct w as [f st inp tr]. destruct inp as [| choice rest].
  { unfold menu_round, print_colored, print. rewrite !bind_emit. simpl. auto. }
  destruct (menu_round_unfold subjects students marks f st choice rest tr) as (tr1 & ->).
  destruct (String.eqb choice "1").
  { unfold bind.
    pose proof (add_record_outcome py_int subjects students marks
                  (World f st rest tr1)) as H.
    destruct (add_record py_int subjects students marks (World f st rest tr1))
      as [[sts m] w2 | e w2 | |] eqn:Hadd; try exact H.
    - simpl. split; [apply H |]. left. exists (World f st rest tr1). now split.
    - simpl in *. destruct H as [Hst H]. split; [exact Hst |].
      destruct H as [(_ & _ & Hf) | [(_ & _ & Hf) | [(_ & _ & Hf) | (_ & Hs & Hf)]]];
        auto. }
  destruct (String.eqb choice "2").
  { pose proof (read_only_then_ret _ (@inl _ unit (students, marks))
                  (World f st rest tr1)
                  (read_only_display_results subjects students marks)) as H.
    destruct (bind _ _ _) as [[[sts m] | u] w2 | e w2 | |]; try exact H; simpl in *.
    - destruct H as (Heq & Hf & Hst & _). injection Heq as -> ->. split; [exact Hst | now right].
    - destruct H as (Heq & _). discriminate.
    - destruct H as (Hf & Hst & _). auto. }
  destruct (String.eqb choice "3").
  { pose proof (read_only_then_ret _ (@inl _ unit (students, marks))
                  (World f st rest tr1)
                  (read_only_analyze_trend subjects students marks)) as H.
    destruct (bind _ _ _) as [[[sts m] | u] w2 | e w2 | |]; try exact H; simpl in *.
    - destruct H as (Heq & Hf & Hst & _). injection Heq as -> ->. split; [exact Hst | now right].
    - destruct H as (Heq & _). discriminate.
    - destruct H as (Hf & Hst & _). auto. }
  destruct (String.eqb choice "4").
  { pose proof (read_only_then_ret _ (@inl _ unit (students, marks))
                  (World f st rest tr1)
                  (read_only_subject_comparison subjects students marks)) as H.
    destruct (bind _ _ _) as [[[sts m] | u] w2 | e w2 | |]; try exact H; simpl in *.
    - destruct H as (Heq & Hf & Hst & _). injection Heq as -> ->. split; [exact Hst | now right].
    - destruct H as (Heq & _). discriminate.
    - destruct H as (Hf & Hst & _). auto. }
  destruct (String.eqb choice "5"); simpl.
  - split; [reflexivity |]. split; [reflexivity | now exists tr1].
  - split; [reflexivity |]. now right.
Qed.

(** The menu loop, started on a file that holds the document of its
    dataset and on a storage that does not fail in the middle of a write,
    ends with a valid file, and by a return only after the goodbye. *)
Lemma menu_loop_outcome (subjects : list string) (fuel : nat) :
  subjects <> [] ->
  forall students marks w,
    table_invariant subjects students marks ->
    file w = Json (document subjects students marks) ->
    storage w <> FailsWrite ->
    match while_true fuel (menu_round py_int subjects) (students, marks) w with
    | Ok _ w' => valid_file (file w') /\ exists tr, trace w' = tr ++ [goodbye]
    | Raise _ w' => valid_file (file w')
    | Unmodelled => False
    | OutOfFuel => True
    end.
Proof.
  intros Hne. induction fuel as [| fuel IH]; intros students marks w Hinv Hfile Hst;
    [exact I |].
  assert (Hvalid : valid_file (file w)) by (exists subjects, students, marks; auto).
  rewrite while_true_succ.
  pose proof (menu_round_outcome subjects students marks w) as Hround.
  destruct (menu_round py_int subjects (students, marks) w)
    as [[[sts m] | u] w1 | e w1 | |]; try contradiction.
  - destruct Hround as [Hst1 Hround].
    assert (Hnext : table_invariant subjects sts m
                    /\ file w1 = Json (document subjects sts m)).
    { destruct Hround as [(w0 & Hw0 & Hadd) | (-> & -> & Hf)].
      - exact (add_record_table_invariant py_int _ _ _ _ _ _ _ Hne Hinv Hadd).
      - split; [exact Hinv | congruence]. }
    destruct Hnext as [Hinv1 Hfile1]. apply (IH sts m w1 Hinv1 Hfile1). congruence.
  - destruct Hround as (_ & Hf & Hbye). simpl. split; [now rewrite Hf | exact Hbye].
  - destruct Hround as [_ [Hf | [Hs _]]]; [now rewrite Hf | contradiction].
Qed.

(** The menu loop on any dataset: it never leaves the model, and returns
    only after the goodbye. *)
Lemma menu_loop_ends (subjects : list string) (fuel : nat) :
  forall s w,
    match while_true fuel (menu_round py_int subjects) s w with
    | Ok _ w' => exists tr, trace w' = tr ++ [goodbye]
    | Raise _ _ | OutOfFuel => True
    | Unmodelled => False
    end.
Proof.
  induction fuel as [| fuel IH]; intros [students marks] w; [exact I |].
  rewrite while_true_succ.
  pose proof (menu_round_outcome subjects students marks w) as Hround.
  destruct (menu_round py_int subjects (students, marks) w)
    as [[[sts m] | u] w1 | e w1 | |]; try contradiction; try exact I.
  - exact (IH (sts, m) w1).
  - simpl. apply Hround.
Qed.

Lemma main_unfold (w : world) :
  main py_int w
  = match initialize_data
            (shows w [PrintColored "Starting Student Performance Analysis Program..." BOLD])
    with
    | Ok (subjects, students, marks) w1 =>
        loop (menu_round py_int subjects) (students, marks)
             (shows w1 [PrintLine ("Loaded data: " ++ str_nat (List.length subjects)
                                   ++ " subjects, " ++ str_nat (List.length students)
                                   ++ " students")])
    | Raise e w1 => Raise e w1
    | Unmodelled => Unmodelled
    | OutOfFuel => OutOfFuel
    end.
Proof.
  unfold main, print_colored, print. rewrite bind_emit. unfold bind at 1.
  destruct (initialize_data _) as [[[subjects students] marks] w1 | | |]; reflexivity.
Qed.

(** X13: a session always ends with a report: the script never lets an
    exception through and never lacks fuel; when it returns, the last thing
    shown is the goodbye of choice 5 or the report of the exception that
    ended the session; and it leaves the model only by loading a file that
    holds a JSON document of some other shape. *)
Theorem script_ends_with_report (w : world) :
  match script py_int w with
  | Ok _ w' =>
      exists tr, trace w' = tr ++ [goodbye]
                 \/ exists e, trace w' = tr ++ [Unexpected e]
  | Unmodelled => exists doc, file w = Json doc
  | Raise _ _ | OutOfFuel => False
  end.
Proof.
  pose proof (script_total py_int w) as Htotal.
  unfold script, try_except in *. rewrite main_unfold in *.
  set (w0 := shows w _) in *.
  destruct (initialize_data w0) as [[[subjects students] marks] w1 | e w1 | |] eqn:Hinit.
  - unfold loop in *.
    match goal with
    | |- context [while_true ?fuel _ ?s ?w2] =>
        pose proof (menu_loop_ends subjects fuel s w2) as Hloop;
        destruct (while_true fuel (menu_round py_int subjects) s w2) as [u w3 | e w3 | |]
    end.
    + destruct Hloop as (tr & Htr). exists tr. now left.
    + simpl. eexists. right. eexists. reflexivity.
    + contradiction.
    + now elim Htotal.
  - simpl. eexists. right. eexists. reflexivity.
  - destruct (file w) as [| | | | | doc] eqn:Hf; try (now exists doc).
    + destruct (writable w) eqn:Hw.
      * rewrite (initialize_data_defaults w0) in Hinit; [discriminate | now left | exact Hw].
      * destruct (initialize_data_unwritable w0) as (w2 & H);
          [now left | exact Hw | rewrite H in Hinit; discriminate].
    + exfalso. destruct w as [f st inp tr]; simpl in Hf; subst f. discriminate.
    + exfalso. destruct w as [f st inp tr]; simpl in Hf; subst f. discriminate.
    + destruct (writable w) eqn:Hw.
      * rewrite (initialize_data_defaults w0) in Hinit; [discriminate | now right | exact Hw].
      * destruct (initialize_data_unwritable w0) as (w2 & H);
          [now right | exact Hw | rewrite H in Hinit; discriminate].
    + exfalso. destruct w as [f st inp tr]; simpl in Hf; subst f. discriminate.
  - now elim Htotal.
Qed.

Lemma table_invariant_default : table_invariant default_subjects [] (Arr1 []).
Proof. now left. Qed.

(** X14: a session keeps the file valid: started without a file, or
    with one that is not JSON text, on a storage that accepts writes, or
    started with a file that holds a dataset with at least one subject and a
    well-shaped marks table on a storage that does not fail in the middle of
    a write, the script returns, whatever is typed, and leaves such a
    file. *)
Theorem session_leaves_valid_file (w : world) :
  ((file w = Absent \/ file w = Garbage) /\ writable w = true)
  \/ (valid_file (file w) /\ storage w <> FailsWrite) ->
  exists w', script py_int w = Ok tt w' /\ valid_file (file w').
Proof.
  intros Hstart.
  pose proof (script_total py_int w) as Htotal.
  unfold script, try_except in *. rewrite main_unfold in *.
  set (w0 := shows w _) in *.
  assert (Hst0 : storage w0 <> FailsWrite).
  { change (storage w <> FailsWrite).
    destruct Hstart as [[_ Hw] | [_ Hs]]; [| exact Hs].
    unfold writable in Hw. destruct (storage w); discriminate. }
  assert (Hinit : exists subjects students marks w1,
             initialize_data w0 = Ok (subjects, students, marks) w1
             /\ subjects <> []
             /\ table_invariant subjects students marks
             /\ file w1 = Json (document subjects students marks)
             /\ storage w1 = storage w0).
  { destruct Hstart
      as [[Hfile Hw] | [(subjects & students & marks & Hne & Hinv & Hfile) _]].
    - exists default_subjects, [], (Arr1 []), (fallback_world w0).
      split; [now apply initialize_data_defaults |].
      split; [discriminate |]. split; [apply table_invariant_default |].
      split; reflexivity.
    - destruct (table_invariant_wf _ _ _ Hinv) as [Hwf Hre].
      eexists subjects, students, marks, _.
      split; [| split; [exact Hne | split; [exact Hinv | split]]].
      + rewrite <- Hre at 1.
        now apply (initialize_data_document subjects students marks w0 Hwf).
      + exact Hfile.
      + reflexivity. }
  destruct Hinit as (subjects & students & marks & w1 & Hinit & Hne & Hinv & Hfile & Hst1).
  rewrite Hinit in *. unfold loop in *.
  match goal with
  | |- context [while_true ?fuel _ ?s ?w2] =>
      assert (Hst2 : storage w2 <> FailsWrite) by (simpl; congruence);
      pose proof (menu_loop_outcome subjects fuel Hne students marks w2 Hinv Hfile Hst2)
        as Hloop;
      destruct (while_true fuel (menu_round py_int subjects) s w2)
        as [u w3 | e w3 | |] eqn:Hrun
  end.
  - destruct u. exists w3. split; [reflexivity | apply Hloop].
  - simpl. eexists. split; [reflexivity | exact Hloop].
  - contradiction.
  - try rewrite Hrun in Htotal. now elim Htotal.
Qed.

(** What a failed load leaves: the input as it was, and the file as it
    was unless the write of the defaults failed after the file was
    opened. *)
Lemma initialize_data_failure (w w1 : world) (e : exn) :
  initialize_data w = Raise e w1 ->
  stdin w1 = stdin w
  /\ storage w1 = storage w
  /\ (file w1 = file w
      \/ (e = OSError /\ storage w = FailsWrite
          /\ (file w = Absent \/ file w = Garbage) /\ file w1 = Garbage)).
Proof.
  intros Hinit.
  destruct (file w) as [| | | | | doc] eqn:Hf.
  6:{ destruct (initialize_data_json w doc Hf)
        as [(d & Hok) | [(e' & Hraise & He) | Hun]];
        rewrite ?Hok, ?Hun in Hinit; try discriminate.
      rewrite Hraise in Hinit. injection Hinit as <- <-. auto. }
  all: destruct w as [f st inp tr]; simpl in Hf; subst f;
    unfold initialize_data, try_except, bind, json_load_file in Hinit;
    simpl in Hinit; try (injection Hinit as <- <-; simpl; now auto).
  all: destruct st; simpl in Hinit; try discriminate;
    injection Hinit as <- <-; simpl; auto 10.
Qed.

(** X16: a failed load ends the session before the menu: when
    [initialize_data] raises, be it for a document that is not an object or
    lacks a key, for a file that cannot be read or decoded, or for defaults
    that cannot be written, the script reports the exception and returns; no
    input was read; and the file is as it was, unless the write of the
    defaults failed after the file was opened, which leaves a file that
    holds no JSON text. *)
Theorem script_failed_load (w w1 : world) (e : exn) :
  initialize_data
    (shows w [PrintColored "Starting Student Performance Analysis Program..." BOLD])
  = Raise e w1 ->
  script py_int w = Ok tt (shows w1 [Unexpected e])
  /\ stdin w1 = stdin w
  /\ storage w1 = storage w
  /\ (file w1 = file w
      \/ (e = OSError /\ storage w = FailsWrite
          /\ (file w = Absent \/ file w = Garbage) /\ file w1 = Garbage)).
Proof.
  intros Hinit. split.
  - unfold script, try_except. rewrite main_unfold, Hinit. reflexivity.
  - exact (initialize_data_failure _ _ _ Hinit).
Qed.

(** X15: the file always holds what the program has in memory: at every
    reachable state of the menu loop, a restart would load exactly the
    subjects, students and marks of that state. *)
Theorem restart_loads_memory
    (f : file_state) (subjects students : list string) (marks : ndarray) (w : world) :
  reachable py_int f (subjects, students, marks) ->
  file w = f ->
  initialize_data w = Ok (subjects, students, marks) (shows w [loaded_message]).
Proof.
  intros Hreach Hfile. apply reachable_store_invariant in Hreach.
  destruct Hreach as (_ & Hinv & Hf).
  destruct (table_invariant_wf _ _ _ Hinv) as [Hwf Hre].
  rewrite <- Hre at 1.
  apply (initialize_data_document subjects students marks w Hwf). congruence.
Qed.

End Session.

(* ===================================================================== *)
(** ** Instances of the further properties *)
(* ===================================================================== *)

Lemma add_record_fails_cleanly_witness :
  storage (World Garbage FailsWrite []
             [PrintColored (newline ++ "Adding a new student record") HEADER;
              Prompt "Enter student name: "; Prompt (mark_prompt "Maths")])
  = storage (World (Json (document ["Maths"] ["Ann"] (Arr2 1 [[7]]))) FailsWrite
                   ["Bob"; "100"] [])
  /\ (OSError <> OSError ->
      file (World Garbage FailsWrite []
              [PrintColored (newline ++ "Adding a new student record") HEADER;
               Prompt "Enter student name: "; Prompt (mark_prompt "Maths")])
      = file (World (Json (document ["Maths"] ["Ann"] (Arr2 1 [[7]]))) FailsWrite
                    ["Bob"; "100"] []))
  /\ (OSError = EOFError ->
      stdin (World Garbage FailsWrite []
               [PrintColored (newline ++ "Adding a new student record") HEADER;
                Prompt "Enter student name: "; Prompt (mark_prompt "Maths")])
      = [])
  /\ (OSError = OSError ->
      (storage (World (Json (document ["Maths"] ["Ann"] (Arr2 1 [[7]]))) FailsWrite
                      ["Bob"; "100"] [])
       = RefusesOpen
       /\ file (World Garbage FailsWrite []
                  [PrintColored (newline ++ "Adding a new student record") HEADER;
                   Prompt "Enter student name: "; Prompt (mark_prompt "Maths")])
          = file (World (Json (document ["Maths"] ["Ann"] (Arr2 1 [[7]]))) FailsWrite
                        ["Bob"; "100"] []))
      \/ (storage (World (Json (document ["Maths"] ["Ann"] (Arr2 1 [[7]]))) FailsWrite
                         ["Bob"; "100"] [])
          = FailsWrite
          /\ file (World Garbage FailsWrite []
                     [PrintColored (newline ++ "Adding a new student record") HEADER;
                      Prompt "Enter student name: "; Prompt (mark_prompt "Maths")])
             = Garbage)).
Proof.
  apply (proj2 (add_record_fails_cleanly decimal_int ["Maths"] ["Ann"] (Arr2 1 [[7]])
                  (World (Json (document ["Maths"] ["Ann"] (Arr2 1 [[7]]))) FailsWrite
                         ["Bob"; "100"] []))
               OSError
               (World Garbage FailsWrite []
                  [PrintColored (newline ++ "Adding a new student record") HEADER;
                   Prompt "Enter student name: "; Prompt (mark_prompt "Maths")])).
  vm_compute. reflexivity.
Defined.


Lemma add_record_keeps_table_shape_witness :
  table_invariant ["Maths"] ["Ann"; "Bob"] (Arr2 1 [[7]; [100]])
  /\ List.length ["Ann"; "Bob"] = S (List.length ["Ann"])
  /\ nrows (Arr2 1 [[7]; [100]]) = S (nrows (Arr2 1 [[7]]))
  /\ nrows (Arr2 1 [[7]; [100]]) = List.length ["Ann"; "Bob"].
Proof.
  pose (w := mkWorld Absent true ["Bob"; "100"] []).
  let r := eval vm_compute in (add_record decimal_int ["Maths"] ["Ann"] (Arr2 1 [[7]]) w) in
  match r with
  | Ok _ ?w' =>
      apply (add_record_keeps_table_shape decimal_int ["Maths"] ["Ann"] ["Ann"; "Bob"]
               (Arr2 1 [[7]]) (Arr2 1 [[7]; [100]]) w w')
  end.
  - discriminate.
  - right. split; [discriminate |]. exists [[7]]. repeat split. repeat constructor.
  - vm_compute. reflexivity.
Defined.

Lemma add_record_column_mismatch_witness :
  exists tr',
    add_record decimal_int ["Maths"] ["Ann"] (Arr2 2 [[7; 8]])
               (mkWorld Absent true ("Bob" :: ["100"] ++ ["5"]) [])
    = Raise ValueError (mkWorld Absent true ["5"] tr').
Proof.
  apply (add_record_column_mismatch decimal_int ["Maths"] ["Ann"] ["100"] [100]
           2%nat [[7; 8]] "Bob" Absent Accepts ["5"] []).
  - discriminate.
  - discriminate.
  - discriminate.
  - repeat constructor; unfold in_range; simpl; lia.
  - reflexivity.
Defined.

Lemma add_record_write_failure_witness :
  exists tr',
    add_record decimal_int ["Maths"] ["Ann"] (Arr2 1 [[7]])
               (World (Json (document ["Maths"] ["Ann"] (Arr2 1 [[7]]))) FailsWrite
                      ("Bob" :: ["100"] ++ ["5"]) [])
    = Raise OSError (World Garbage FailsWrite ["5"] tr').
Proof.
  apply (add_record_write_failure decimal_int ["Maths"] ["Ann"] ["100"] [100]
           (Arr2 1 [[7]]) (Arr2 1 [[7]; [100]]) "Bob"
           (Json (document ["Maths"] ["Ann"] (Arr2 1 [[7]]))) FailsWrite ["5"] []).
  - repeat constructor; unfold in_range; simpl; lia.
  - reflexivity.
  - reflexivity.
  - discriminate.
Defined.

Lemma analyze_trend_plots_columns_witness :
  analyze_trend ["Maths"; "Science"] ["Ann"; "Bob"] (Arr2 2 [[70; 80]; [100; 0]])
                (mkWorld Absent true [] [])
  = Ok tt (shows (mkWorld Absent true [] [])
             (trend_chart ["Maths"; "Science"] ["Ann"; "Bob"] [[70; 80]; [100; 0]]))
  /\ forall j, List.length (column_values [[70; 80]; [100; 0]] j)
               = List.length (seq 0 (List.length ["Ann"; "Bob"])).
Proof.
  apply (analyze_trend_plots_columns ["Maths"; "Science"] ["Ann"; "Bob"]
           [[70; 80]; [100; 0]] (mkWorld Absent true [] [])).
  - simpl. lia.
  - repeat constructor.
  - reflexivity.
Defined.

Lemma analyze_trend_missing_column_witness :
  exists shown,
    analyze_trend ["Maths"; "Science"] ["Ann"; "Bob"] (Arr2 1 [[70]; [100]])
                  (mkWorld Absent true [] [])
    = Raise IndexError (shows (mkWorld Absent true [] []) shown)
    /\ ~ In (Plt ShowChart) shown.
Proof.
  apply (analyze_trend_missing_column ["Maths"; "Science"] ["Ann"; "Bob"]
           (Arr2 1 [[70]; [100]]) (mkWorld Absent true [] [])).
  - simpl. lia.
  - repeat constructor.
  - discriminate.
  - split; [simpl; lia | reflexivity].
Defined.

Lemma menu_round_other_choices_witness :
  match menu_round decimal_int ["Maths"] (["Ann"], Arr2 1 [[7]])
                   (mkWorld Absent false ["9"; "5"] [])
  with
  | Ok r w' =>
      file w' = Absent /\ storage w' = RefusesOpen /\ stdin w' = ["5"]
      /\ r = (if String.eqb "9" "5" then inr tt else inl (["Ann"], Arr2 1 [[7]]))
  | Raise _ w' => file w' = Absent /\ storage w' = RefusesOpen /\ stdin w' = ["5"]
  | Unmodelled | OutOfFuel => False
  end.
Proof.
  apply (menu_round_other_choices decimal_int ["Maths"] ["Ann"] (Arr2 1 [[7]])
           (mkWorld Absent false ["9"; "5"] []) "9" ["5"]).
  - reflexivity.
  - discriminate.
Defined.

Lemma session_leaves_valid_file_witness :
  exists w',
    script decimal_int (mkWorld Garbage true ["1"; "Ann"; "70"; "x"] []) = Ok tt w'
    /\ valid_file (file w').
Proof.
  apply (session_leaves_valid_file decimal_int
           (mkWorld Garbage true ["1"; "Ann"; "70"; "x"] [])).
  left. split; [right; reflexivity | reflexivity].
Defined.

Lemma restart_loads_memory_witness :
  initialize_data
    (mkWorld (Json (document default_subjects ["Ann"] (Arr2 5 [[70; 80; 90; 60; 100]])))
             false [] [])
  = Ok (default_subjects, ["Ann"], Arr2 5 [[70; 80; 90; 60; 100]])
       (shows
          (mkWorld (Json (document default_subjects ["Ann"]
                                   (Arr2 5 [[70; 80; 90; 60; 100]])))
                   false [] [])
          [loaded_message]).
Proof.
  pose (w0 := mkWorld Absent true [] []).
  pose (w1 := mkWorld (Json (document default_subjects [] (Arr1 []))) true
                      ["1"; "Ann"; "70"; "80"; "90"; "60"; "100"] []).
  apply (restart_loads_memory decimal_int
           (Json (document default_subjects ["Ann"] (Arr2 5 [[70; 80; 90; 60; 100]]))));
    [| reflexivity].
  let r := eval vm_compute in
             (menu_round decimal_int default_subjects ([], Arr1 []) w1) in
  match r with
  | Ok _ ?w2 =>
      apply (reach_round decimal_int (file w1) default_subjects [] ["Ann"]
               (Arr1 []) (Arr2 5 [[70; 80; 90; 60; 100]]) w1 w2)
  end.
  - apply (reach_first_run decimal_int w0 (fallback_world w0)
             (default_subjects, [], Arr1 [])).
    + left. reflexivity.
    + reflexivity.
  - reflexivity.
  - vm_compute. reflexivity.
Defined.

Lemma script_failed_load_witness :
  script decimal_int (World Absent FailsWrite ["1"; "Ann"] [])
  = Ok tt
       (shows
          (World Garbage FailsWrite ["1"; "Ann"]
             [PrintColored "Starting Student Performance Analysis Program..." BOLD;
              PrintColored "No existing data found. Initializing with default subjects."
                YELLOW])
          [Unexpected OSError])
  /\ ["1"; "Ann"] = ["1"; "Ann"]
  /\ FailsWrite = FailsWrite
  /\ (Garbage = Absent
      \/ (OSError = OSError /\ FailsWrite = FailsWrite
          /\ (Absent = Absent \/ Absent = Garbage) /\ Garbage = Garbage)).
Proof.
  apply (script_failed_load decimal_int (World Absent FailsWrite ["1"; "Ann"] [])
           (World Garbage FailsWrite ["1"; "Ann"]
              [PrintColored "Starting Student Performance Analysis Program..." BOLD;
               PrintColored "No existing data found. Initializing with default subjects."
                 YELLOW])
           OSError).
  reflexivity.
Defined.
